(** * The glue-dispenser G-code writer (GCode_writer.ipynb)

    A shallow embedding of the notebook's three code cells: the emitters of
    the first cell ([initialize], [moveTo], [moveToEnd], [glueDeposition]),
    the generator of the second cell (grid of glue dots, then the write loop
    over the output file) and the grid of the third (plotting) cell.

    Python's numbers are kept as the notebook has them: [int] is [Z], [float]
    and NumPy's [float64] are the kernel's binary64 floats, so that rounding
    is the one the notebook computes with. *)

From Stdlib Require Import ZArith List String Ascii Bool Lia.
From Stdlib Require Import Floats DecimalString.
Import ListNotations.

Open Scope string_scope.
Open Scope Z_scope.

(** ** Exceptions and results *)

Inductive exn : Type :=
| IndexError
| OverflowError
| ValueError.

Inductive result (A : Type) : Type :=
| Ok (a : A)
| Raise (e : exn).

Arguments Ok {A} a.
Arguments Raise {A} e.

Definition rbind {A B : Type} (r : result A) (k : A -> result B) : result B :=
  match r with
  | Ok a => k a
  | Raise e => Raise e
  end.

Declare Scope result_scope.
Delimit Scope result_scope with res.
Notation "x <- r ;; k" := (rbind r (fun x => k))
  (at level 61, r at next level, right associativity) : result_scope.

(** ** Python numbers *)

(** The notebook passes both [int]s (the defaults [(0,237)], [(0,0)], the
    pauses) and floats (the deltas of the NumPy array) to the emitters. *)
Inductive num : Type :=
| PyInt (z : Z)
| PyFloat (f : float).

(** [x == 0]: integer equality, or IEEE equality (true of both zeros, false
    of a NaN). *)
Definition py_eq0 (x : num) : bool :=
  match x with
  | PyInt z => z =? 0
  | PyFloat f => PrimFloat.eqb f 0
  end.

(** [float(z)]: round to nearest, ties to even; [OverflowError] when the
    rounded value exceeds the largest double. *)
Definition SF_of_Z (z : Z) : spec_float :=
  binary_normalize prec emax z 0 false.

Definition float_of_int (z : Z) : result spec_float :=
  match SF_of_Z z with
  | S754_infinity _ => Raise OverflowError
  | x => Ok x
  end.

(** The same conversion as a binary64 value, for arithmetic: the [float(i)]
    of [i * stepY] and the entries of [np.array]. The integers of the grid
    are far below the overflow of [float_of_int]. *)
Definition float_of_Z (z : Z) : float := SF2Prim (SF_of_Z z).

(** ** Text of numbers *)

(** Decimal digits of a natural number, ["0"] for zero. *)
Definition str_uint (n : Z) : string :=
  NilZero.string_of_uint (N.to_uint (Z.to_N n)).

(** [str(z)] of an [int]. *)
Definition py_str (z : Z) : string :=
  if z <? 0 then "-" ++ str_uint (- z) else str_uint z.

Fixpoint zeros (n : nat) : string :=
  match n with
  | O => ""
  | S k => String "0" (zeros k)
  end.

(** [format(z, '03d')]: sign-aware zero padding to a width of at least 3. *)
Definition format_03d (z : Z) : string :=
  let sign := if z <? 0 then "-" else "" in
  let digits := str_uint (Z.abs z) in
  sign ++ zeros (3 - String.length sign - String.length digits) ++ digits.

Definition digit (d : Z) : ascii := ascii_of_nat (48 + Z.to_nat d).

(** The three digits of a number below 1000. *)
Definition pad3 (n : Z) : string :=
  String (digit (n / 100))
    (String (digit ((n / 10) mod 10)) (String (digit (n mod 10)) "")).

(** [n / d] rounded to the nearest integer, ties to the even one ([d > 0]). *)
Definition round_half_even (n d : Z) : Z :=
  let q := n / d in
  let r := n mod d in
  if 2 * r <? d then q
  else if d <? 2 * r then q + 1
  else if Z.even q then q else q + 1.

(** [|x| * 1000] correctly rounded to an integer, for [|x| = m * 2^e]. *)
Definition thousandths (m : positive) (e : Z) : Z :=
  if 0 <=? e then Z.pos m * 2 ^ e * 1000
  else round_half_even (Z.pos m * 1000) (2 ^ (- e)).

Definition fixed3 (neg : bool) (n : Z) : string :=
  (if neg then "-" else "") ++ str_uint (n / 1000) ++ "." ++ pad3 (n mod 1000).

(** [format(x, '.3f')] of a float: correctly rounded fixed point with three
    decimals; infinities and NaN are spelled out. *)
Definition format_3f_SF (x : spec_float) : string :=
  match x with
  | S754_zero s => fixed3 s 0
  | S754_infinity s => if s then "-inf" else "inf"
  | S754_nan => "nan"
  | S754_finite s m e => fixed3 s (thousandths m e)
  end.

(** [f'{x:.3f}']: an [int] is converted with [float(x)] first. *)
Definition format_3f (x : num) : result string :=
  match x with
  | PyInt z => (x' <- float_of_int z ;; Ok (format_3f_SF x'))%res
  | PyFloat f => Ok (format_3f_SF (Prim2SF f))
  end.

(** [f'{x:03d}']: the [d] code is refused for a float. *)
Definition format_d3 (x : num) : result string :=
  match x with
  | PyInt z => Ok (format_03d z)
  | PyFloat _ => Raise ValueError
  end.

(** ** The emitters (first cell) *)

Definition nl : string := String (ascii_of_nat 10) "".

(** ['G00' if fast else 'G01'] *)
Definition move_code (fast : bool) : string := if fast then "G00" else "G01".

(** [initialize(zero_glue, feed_rate, fast)]; the notebook calls it with its
    defaults [(0,237)], [1000], [True]. *)
Definition initialize (zero_glue : num * num) (feed_rate : Z) (fast : bool)
  : result string :=
  (let s := "; Program initialization" ++ nl in
   let s := s ++ "$100=159.949; X axis steps/mm" ++ nl in
   let s := s ++ "$101=160.241; Y axis steps/mm" ++ nl in
   let s := s ++ "$130=990; X axis maximum travel" ++ nl in
   let s := s ++ "$X; GRBL unlock" ++ nl in
   let s := s ++ "M3" ++ nl in
   let s := s ++ "F" ++ py_str feed_rate ++ nl in
   let s := s ++ "$H; GRBL homing" ++ nl in
   let s := s ++ "G91" ++ nl in
   let s := s ++ move_code fast in
   x <- format_3f (fst zero_glue) ;;
   y <- format_3f (snd zero_glue) ;;
   let s := s ++ "X" ++ x ++ "Y" ++ y ++ nl in
   let s := s ++ "; End of program initialization" ++ nl in
   Ok s)%res.

(** [moveTo(xy, fast, comment)] *)
Definition moveTo (xy : num * num) (fast : bool) (comment : string)
  : result string :=
  (let x := fst xy in
   let y := snd xy in
   let s := move_code fast in
   s <- (if negb (py_eq0 x)
         then (fx <- format_3f x ;; Ok (s ++ "X" ++ fx))
         else Ok s) ;;
   s <- (if negb (py_eq0 y)
         then (fy <- format_3f y ;; Ok (s ++ "Y" ++ fy))
         else Ok s) ;;
   let s := s ++ comment in
   let s := s ++ nl in
   Ok s)%res.

(** [moveToEnd(fast)] (defined in the notebook, never called by it) *)
Definition moveToEnd (fast : bool) : string :=
  let s := "G90" ++ nl in
  let s := s ++ move_code fast in
  let s := s ++ "X950" in
  s.

(** [glueDeposition(pause_long, pause_short, pause_glue)] *)
Definition glueDeposition (pause_long pause_short pause_glue : num)
  : result string :=
  (let s := "; ------- Glue deposition -------" ++ nl in
   let s := s ++ "M4" ++ nl in
   p <- format_d3 pause_long ;;
   let s := s ++ "G4 P" ++ p ++ nl in
   let s := s ++ "M8" ++ nl in
   p <- format_d3 pause_short ;;
   let s := s ++ "G4 P" ++ p ++ nl in
   let s := s ++ "M9" ++ nl in
   p <- format_d3 pause_glue ;;
   let s := s ++ "G4 P" ++ p ++ nl in
   let s := s ++ "M3" ++ nl in
   p <- format_d3 pause_long ;;
   let s := s ++ "G4 P" ++ p ++ nl in
   let s := s ++ "; ------- End of glue deposition -------" ++ nl in
   Ok s)%res.

(** ** The grid of glue dots *)

(** [range(n)], empty when [n <= 0]. *)
Definition range (n : Z) : list Z := map Z.of_nat (seq 0 (Z.to_nat n)).

(** The nested loop shared by the second and third cells: four rows of
    [glueDots_X] tuples [(int, float)], row [i] at [y = i*stepY], even rows
    left to right and odd rows right to left. *)
Definition grid_dot (stepX : Z) (stepY : float) (glueDots_X i j : Z)
  : Z * float :=
  if i mod 2 =? 0
  then (j * stepX, (float_of_Z i * stepY)%float)
  else ((glueDots_X - j - 1) * stepX, (float_of_Z i * stepY)%float).

Definition grid_row (stepX : Z) (stepY : float) (glueDots_X i : Z)
  : list (Z * float) :=
  map (grid_dot stepX stepY glueDots_X i) (range glueDots_X).

Definition grid (stepX : Z) (stepY : float) (glueDots_X : Z)
  : list (Z * float) :=
  flat_map (grid_row stepX stepY glueDots_X) (range 4).

(** [np.array(glueDots)]: every entry becomes a [float64]. *)
Definition np_array (dots : list (Z * float)) : list (float * float) :=
  map (fun p => (float_of_Z (fst p), snd p)) dots.

(** The notebook's constants. [stepY] is the double nearest to 26.2. *)
Definition stepX : Z := 20.
Definition stepY : float := 0x1.a333333333333p+4%float.
Definition fastmovement : bool := true.

(** Dots per row, second cell (the generator); [filename] is the ladder
    length in number of silicons. *)
Definition glueDots_X (filename : Z) : Z := 50 - ((12 - filename + 1) * 4).

(** Dots per row, third cell (the plot). *)
Definition glueDots_X_plot (filename : Z) : Z := 51 - ((12 - filename) * 4).

Definition glueDots (filename : Z) : list (Z * float) :=
  grid stepX stepY (glueDots_X filename).

Definition glueCoord (filename : Z) : list (float * float) :=
  np_array (glueDots filename).

Definition glueDots_plot (filename : Z) : list (Z * float) :=
  grid stepX stepY (glueDots_X_plot filename).

(** The window of the plot (third cell): [ax.set_xlim([-20, 1200])] and
    [ax.set_ylim([-20, 100])]. *)
Definition xlim : Z * Z := (-20, 1200).
Definition ylim : Z * Z := (-20, 100).

(** ** The generator (second cell) *)

(** What a run leaves behind: the output file (absent until it is opened;
    then its path and the strings written, in order) and the printed lines. *)
Record world : Type := mkWorld {
  gcode : option (string * list string);
  stdout : list string
}.

Definition initial_world : world := mkWorld None [].

Definition M (A : Type) : Type := world -> world * result A.

Definition ret {A : Type} (a : A) : M A := fun w => (w, Ok a).

Definition bind {A B : Type} (m : M A) (k : A -> M B) : M B :=
  fun w =>
    match m w with
    | (w', Ok a) => k a w'
    | (w', Raise e) => (w', Raise e)
    end.

Definition lift {A : Type} (r : result A) : M A := fun w => (w, r).

Declare Scope run_scope.
Delimit Scope run_scope with run.
Notation "x <- m ;; k" := (bind m (fun x => k))
  (at level 61, m at next level, right associativity) : run_scope.
Notation "m ;;; k" := (bind m (fun _ => k))
  (at level 61, right associativity) : run_scope.

Definition print (s : string) : M unit :=
  fun w => (mkWorld (gcode w) (stdout w ++ [(s ++ nl)%string])%list, Ok tt).

(** [open(path, 'w')]: the file exists and is empty from here on. *)
Definition open_w (path : string) : M unit :=
  fun w => (mkWorld (Some (path, [])) (stdout w), Ok tt).

(** [gcode.write(s)] *)
Definition gcode_write (s : string) : M unit :=
  fun w =>
    match gcode w with
    | Some (path, written) =>
        (mkWorld (Some (path, (written ++ [s])%list)) (stdout w), Ok tt)
    | None => (w, Raise ValueError)
    end.

(** [a[i]] *)
Definition getitem {A : Type} (a : list A) (i : nat) : M A :=
  lift (match nth_error a i with
        | Some x => Ok x
        | None => Raise IndexError
        end).

(** The (column, row) pair the comment of dot [i] carries. *)
Definition comment_position (i : Z) : Z * Z :=
  (if (i / 51) mod 2 =? 0 then i mod 51 else 50 - i mod 51, (i / 51) mod 4).

Definition dot_comment (i : Z) : string :=
  " ; Glue dot in position (" ++ py_str (fst (comment_position i)) ++ ", "
    ++ py_str (snd (comment_position i)) ++ ")".

Definition first_comment (i : Z) : string :=
  "; First glue dot in position (" ++ py_str (i mod 51) ++ ", "
    ++ py_str ((i / 51) mod 4) ++ ")" ++ nl.

Definition delta (xy oldXY : float * float) : float * float :=
  ((fst xy - fst oldXY)%float, (snd xy - snd oldXY)%float).

Definition is_zero_delta (d : float * float) : bool :=
  PrimFloat.eqb (fst d) 0 && PrimFloat.eqb (snd d) 0.

(** One turn of the write loop; returns the new [oldXY]. *)
Definition dot_body (coords : list (float * float)) (i : nat)
    (oldXY : float * float) : M (float * float) :=
  (xy <- getitem coords i ;;
   let d := delta xy oldXY in
   (if negb (is_zero_delta d)
    then line <- lift (moveTo (PyFloat (fst d), PyFloat (snd d)) fastmovement
                              (dot_comment (Z.of_nat i))) ;;
         gcode_write line
    else gcode_write (first_comment (Z.of_nat i))) ;;;
   block <- lift (glueDeposition (PyInt 2) (PyInt 1) (PyInt 1)) ;;
   gcode_write block ;;;
   ret xy)%run.

Fixpoint for_dots (coords : list (float * float)) (indices : list nat)
    (oldXY : float * float) : M (float * float) :=
  match indices with
  | [] => ret oldXY
  | i :: rest =>
      (xy <- dot_body coords i oldXY ;; for_dots coords rest xy)%run
  end.

Definition gcode_path (filename : Z) : string :=
  "./" ++ py_str filename ++ "Si.gcode".

(** The second cell, with the ladder length [filename] as its input. *)
Definition generate (filename : Z) : M unit :=
  (let dots := glueDots filename in
   let coords := np_array dots in
   oldXY <- getitem coords 0 ;;
   print (py_str (Z.of_nat (List.length dots))) ;;;
   open_w (gcode_path filename) ;;;
   init <- lift (initialize (PyInt 0, PyInt 237) 1000 true) ;;
   gcode_write init ;;;
   _ <- for_dots coords (seq 0 (List.length coords)) oldXY ;;
   gcode_write "SH")%run.

(** The text of the output file after a run, if the file exists. *)
Definition file_text (w : world) : option string :=
  match gcode w with
  | Some (_, written) => Some (String.concat "" written)
  | None => None
  end.

(** * Notions the statements use *)

(** The ladder lengths the machine takes: 1 to 12 silicons. *)
Definition valid_length (L : Z) : Prop := 1 <= L <= 12.

(** A decimal digit, and a text of decimal digits only. *)
Definition is_digit (c : ascii) : bool :=
  ((48 <=? nat_of_ascii c) && (nat_of_ascii c <=? 57))%nat.

Fixpoint all_digits (s : string) : bool :=
  match s with
  | EmptyString => true
  | String c r => is_digit c && all_digits r
  end.

(** A fixed-point numeral with exactly three decimals: an optional minus
    sign, at least one digit, a point, three digits. *)
Definition three_decimals (s : string) : Prop :=
  exists sign whole frac,
    s = sign ++ whole ++ "." ++ frac
    /\ (sign = "" \/ sign = "-")
    /\ whole <> "" /\ all_digits whole = true
    /\ String.length frac = 3%nat /\ all_digits frac = true.

(** The numbers a coordinate can be: the reals among Python's numbers, that
    is no NaN, no infinity, and no [int] beyond the range of a double (for
    which the [f] format raises). *)
Definition finite_SF (x : spec_float) : bool :=
  match x with
  | S754_zero _ | S754_finite _ _ _ => true
  | S754_infinity _ | S754_nan => false
  end.

Definition real_num (x : num) : bool :=
  match x with
  | PyInt z => finite_SF (SF_of_Z z)
  | PyFloat f => finite_SF (Prim2SF f)
  end.

(** What [moveTo] puts on the line for one axis: nothing for a zero, else the
    axis letter and the value with three decimals. *)
Definition axis_field (axis : string) (v : num) (field : string) : Prop :=
  if py_eq0 v then field = ""
  else exists body,
      format_3f v = Ok body /\ field = axis ++ body /\ three_decimals body.

(** The lines of a text, each without its terminator. *)
Fixpoint lines (s : string) : list string :=
  match s with
  | EmptyString => []
  | String c r =>
      if Ascii.eqb c (ascii_of_nat 10) then "" :: lines r
      else match lines r with
           | [] => [String c ""]
           | l :: ls => String c l :: ls
           end
  end.

(** The lines [initialize()] returns. *)
Definition init_block : string :=
  "; Program initialization" ++ nl
  ++ "$100=159.949; X axis steps/mm" ++ nl
  ++ "$101=160.241; Y axis steps/mm" ++ nl
  ++ "$130=990; X axis maximum travel" ++ nl
  ++ "$X; GRBL unlock" ++ nl
  ++ "M3" ++ nl
  ++ "F1000" ++ nl
  ++ "$H; GRBL homing" ++ nl
  ++ "G91" ++ nl
  ++ "G00X0.000Y237.000" ++ nl
  ++ "; End of program initialization" ++ nl.

(** The block [glueDeposition()] returns with the pauses the generator
    passes (the defaults 2, 1, 1). *)
Definition dispense_block : string :=
  "; ------- Glue deposition -------" ++ nl
  ++ "M4" ++ nl
  ++ "G4 P002" ++ nl
  ++ "M8" ++ nl
  ++ "G4 P001" ++ nl
  ++ "M9" ++ nl
  ++ "G4 P001" ++ nl
  ++ "M3" ++ nl
  ++ "G4 P002" ++ nl
  ++ "; ------- End of glue deposition -------" ++ nl.

(** The axis field of [moveTo] for a float. *)
Definition float_field (axis : string) (v : float) : string :=
  if PrimFloat.eqb v 0 then "" else axis ++ format_3f_SF (Prim2SF v).

(** The positioning line of dot [i], reached by the delta [d]. *)
Definition position_line (i : nat) (d : float * float) : string :=
  if is_zero_delta d then first_comment (Z.of_nat i)
  else move_code fastmovement ++ float_field "X" (fst d)
         ++ float_field "Y" (snd d) ++ dot_comment (Z.of_nat i) ++ nl.

(** The strings the loop writes for the dots [cs], numbered from [i], when
    it starts with [oldXY]. *)
Fixpoint dot_writes (i : nat) (oldXY : float * float)
    (cs : list (float * float)) : list string :=
  match cs with
  | [] => []
  | xy :: rest =>
      position_line i (delta xy oldXY) :: dispense_block
        :: dot_writes (S i) xy rest
  end.

(** The value of [oldXY] when the loop, started with [oldXY], reaches dot
    [k] of [cs]. *)
Definition previous (oldXY : float * float) (cs : list (float * float))
    (k : nat) : float * float :=
  match k with
  | O => oldXY
  | S k' => nth k' cs oldXY
  end.

(** The y-coordinate of row [i]. *)
Definition row_y (i : nat) : float := (float_of_Z (Z.of_nat i) * stepY)%float.

(** The step in y from row [i] to the next: [stepY] from row 0 and from
    row 1; from row 2 one unit in the last place less, since [3 * stepY]
    rounds down to the double 78.6. *)
Definition row_step (i : nat) : float :=
  if (i <? 2)%nat then stepY else 0x1.a333333333332p+4%float.

(** The coordinate of the dot at a logical (column, row) position: column
    times [stepX], row times [stepY]. *)
Definition position_coordinate (pos : Z * Z) : Z * float :=
  (fst pos * stepX, (float_of_Z (snd pos) * stepY)%float).

(** The encoding with the row width [W] in the place of the comment's
    constants 51 and 50. *)
Definition position_for_width (W i : Z) : Z * Z :=
  let row := (i / W) mod 4 in
  (if row mod 2 =? 0 then i mod W else W - 1 - i mod W, row).

(** A dot that falls inside the window of the plot. *)
Definition inside_window (p : Z * float) : bool :=
  (fst xlim <=? fst p) && (fst p <=? snd xlim)
  && PrimFloat.leb (float_of_Z (fst ylim)) (snd p)
  && PrimFloat.leb (snd p) (float_of_Z (snd ylim)).

(** Texts without a line terminator, and texts that end with one. *)
Definition is_nl (c : ascii) : bool := Ascii.eqb c (ascii_of_nat 10).

Fixpoint no_nl (s : string) : bool :=
  match s with
  | EmptyString => true
  | String c r => negb (is_nl c) && no_nl r
  end.

Fixpoint ends_with_nl (s : string) : bool :=
  match s with
  | EmptyString => false
  | String c EmptyString => is_nl c
  | String _ r => ends_with_nl r
  end.

Definition is_float (x : num) : bool :=
  match x with
  | PyInt _ => false
  | PyFloat _ => true
  end.

Definition position_eqb (a b : Z * Z) : bool :=
  (fst a =? fst b) && (snd a =? snd b).

(** The axis field of the move to dot [j] of row [i]: a step in y to the
    first dot of a row, else a step in x, forwards on even rows. *)
Definition move_field (i j : nat) : string :=
  if (j =? 0)%nat then "Y26.200"
  else if Nat.even i then "X20.000" else "X-20.000".

(** * Properties *)

(** ** The grid *)

Section Grid.

Variables (sx : Z) (sy : float) (W : Z).

Lemma length_range (n : Z) : List.length (range n) = Z.to_nat n.
Proof. unfold range. now rewrite length_map, length_seq. Qed.

Lemma nth_error_range (n : Z) (j : nat) :
  (j < Z.to_nat n)%nat -> nth_error (range n) j = Some (Z.of_nat j).
Proof.
  intros Hj. unfold range.
  rewrite nth_error_map, nth_error_nth' with (d := O)
    by now rewrite length_seq.
  now rewrite seq_nth.
Qed.

Lemma length_grid_row (i : Z) :
  List.length (grid_row sx sy W i) = Z.to_nat W.
Proof. unfold grid_row. now rewrite length_map, length_range. Qed.

Lemma nth_error_grid_row (i : Z) (j : nat) :
  (j < Z.to_nat W)%nat ->
  nth_error (grid_row sx sy W i) j = Some (grid_dot sx sy W i (Z.of_nat j)).
Proof.
  intros Hj. unfold grid_row.
  now rewrite nth_error_map, nth_error_range.
Qed.

(** The four rows, one after the other. *)
Lemma grid_rows :
  grid sx sy W =
    (grid_row sx sy W 0 ++ grid_row sx sy W 1
       ++ grid_row sx sy W 2 ++ grid_row sx sy W 3)%list.
Proof.
  unfold grid. change (range 4) with [0; 1; 2; 3].
  cbn [flat_map]. now rewrite app_nil_r.
Qed.

Lemma length_grid : List.length (grid sx sy W) = (4 * Z.to_nat W)%nat.
Proof. rewrite grid_rows, !length_app, !length_grid_row. lia. Qed.

(** Dot [j] of row [i] sits at index [i * W + j]. *)
Lemma nth_error_grid (i j : nat) :
  (i < 4)%nat -> (j < Z.to_nat W)%nat ->
  nth_error (grid sx sy W) (i * Z.to_nat W + j)
  = Some (grid_dot sx sy W (Z.of_nat i) (Z.of_nat j)).
Proof.
  intros Hi Hj. rewrite grid_rows.
  destruct i as [|[|[|[|i]]]]; try lia; cbn [Nat.mul Nat.add].
  - rewrite nth_error_app1 by (rewrite length_grid_row; lia).
    now apply nth_error_grid_row.
  - rewrite nth_error_app2 by (rewrite length_grid_row; lia).
    rewrite length_grid_row.
    rewrite nth_error_app1 by (rewrite length_grid_row; lia).
    replace (Z.to_nat W + 0 + j - Z.to_nat W)%nat with j by lia.
    now apply nth_error_grid_row.
  - rewrite nth_error_app2 by (rewrite length_grid_row; lia).
    rewrite length_grid_row.
    rewrite nth_error_app2 by (rewrite length_grid_row; lia).
    rewrite length_grid_row.
    rewrite nth_error_app1 by (rewrite length_grid_row; lia).
    replace (Z.to_nat W + (Z.to_nat W + 0) + j - Z.to_nat W - Z.to_nat W)%nat
      with j by lia.
    now apply nth_error_grid_row.
  - rewrite nth_error_app2 by (rewrite length_grid_row; lia).
    rewrite length_grid_row.
    rewrite nth_error_app2 by (rewrite length_grid_row; lia).
    rewrite length_grid_row.
    rewrite nth_error_app2 by (rewrite length_grid_row; lia).
    rewrite length_grid_row.
    replace (Z.to_nat W + (Z.to_nat W + (Z.to_nat W + 0)) + j
             - Z.to_nat W - Z.to_nat W - Z.to_nat W)%nat with j by lia.
    now apply nth_error_grid_row.
Qed.

Lemma fst_grid_dot (i j : Z) :
  fst (grid_dot sx sy W i j)
  = if i mod 2 =? 0 then j * sx else (W - j - 1) * sx.
Proof. unfold grid_dot. now destruct (i mod 2 =? 0). Qed.

Lemma snd_grid_dot (i j : Z) :
  snd (grid_dot sx sy W i j) = (float_of_Z i * sy)%float.
Proof. unfold grid_dot. now destruct (i mod 2 =? 0). Qed.

Lemma nth_error_np_array (dots : list (Z * float)) (k : nat) (p : Z * float) :
  nth_error dots k = Some p ->
  nth_error (np_array dots) k = Some (float_of_Z (fst p), snd p).
Proof. intros H. unfold np_array. now rewrite nth_error_map, H. Qed.

Lemma length_np_array (dots : list (Z * float)) :
  List.length (np_array dots) = List.length dots.
Proof. apply length_map. Qed.

End Grid.

(** Decides the parity test of a concrete row number. *)
Ltac row_parity :=
  repeat match goal with
    | |- context [?a mod 2 =? 0] =>
        let b := eval vm_compute in (a mod 2 =? 0) in
        change (a mod 2 =? 0) with b; cbv iota
    | |- context [Nat.even ?n] =>
        let b := eval vm_compute in (Nat.even n) in
        change (Nat.even n) with b; cbv iota
    end.

(** Every index of a grid of positive width is the index of one dot of one
    of the four rows. *)
Lemma index_row_column (w k : nat) :
  (k < 4 * w)%nat ->
  exists i j, (i < 4)%nat /\ (j < w)%nat /\ k = (i * w + j)%nat.
Proof.
  intros Hk. assert (Hw : w <> 0%nat) by lia.
  exists (k / w)%nat, (k mod w)%nat. repeat split.
  - apply Nat.Div0.div_lt_upper_bound. lia.
  - now apply Nat.mod_upper_bound.
  - rewrite (Nat.div_mod_eq k w) at 1. lia.
Qed.

Lemma glueDots_X_linear (L : Z) : glueDots_X L = 4 * L - 2.
Proof. unfold glueDots_X. lia. Qed.

Lemma glueDots_X_plot_linear (L : Z) : glueDots_X_plot L = 4 * L + 3.
Proof. unfold glueDots_X_plot. lia. Qed.

(** C1. For a valid ladder length [L] the grid holds [4 * glueDots_X L]
    dots: the four rows of [glueDots_X L] dots each, row 0 first; and the
    row width grows strictly with the ladder length. *)
Theorem grid_size_and_row_width (L : Z) :
  valid_length L ->
  Z.of_nat (List.length (glueDots L)) = 4 * glueDots_X L
  /\ glueDots L =
       (grid_row stepX stepY (glueDots_X L) 0
          ++ grid_row stepX stepY (glueDots_X L) 1
          ++ grid_row stepX stepY (glueDots_X L) 2
          ++ grid_row stepX stepY (glueDots_X L) 3)%list
  /\ (forall i, Z.of_nat (List.length (grid_row stepX stepY (glueDots_X L) i))
                = glueDots_X L)
  /\ (forall L', L < L' -> glueDots_X L < glueDots_X L').
Proof.
  intros [Hlo Hhi]. unfold glueDots.
  assert (HW : 0 <= glueDots_X L) by (rewrite glueDots_X_linear; lia).
  repeat split.
  - rewrite length_grid. lia.
  - apply grid_rows.
  - intros i. rewrite length_grid_row. lia.
  - intros L' HL. rewrite !glueDots_X_linear. lia.
Qed.

Lemma grid_size_and_row_width_witness :
  valid_length 12
  /\ Z.of_nat (List.length (glueDots 12)) = 4 * glueDots_X 12.
Proof.
  assert (H : valid_length 12) by (unfold valid_length; lia).
  exact (conj H (proj1 (grid_size_and_row_width 12 H))).
Defined.

(** The third cell's width is strictly increasing too, and five dots more
    than the generator's. *)
Lemma glueDots_X_plot_increasing (L L' : Z) :
  L < L' -> glueDots_X_plot L < glueDots_X_plot L'.
Proof. rewrite !glueDots_X_plot_linear. lia. Qed.

Lemma glueDots_X_plot_offset (L : Z) : glueDots_X_plot L = glueDots_X L + 5.
Proof. rewrite glueDots_X_linear, glueDots_X_plot_linear. lia. Qed.

(** C2. Serpentine rows: within row [i] of the grid the x-coordinates never
    decrease from one dot to a later one when [i] is even and never increase
    when [i] is odd, and every dot of the row has [y = i * stepY]. *)
Theorem serpentine_rows (L : Z) (i j j' : nat) (p p' : Z * float) :
  (i < 4)%nat -> (j <= j')%nat -> (j' < Z.to_nat (glueDots_X L))%nat ->
  nth_error (glueDots L) (i * Z.to_nat (glueDots_X L) + j) = Some p ->
  nth_error (glueDots L) (i * Z.to_nat (glueDots_X L) + j') = Some p' ->
  (Nat.even i = true -> fst p <= fst p')
  /\ (Nat.even i = false -> fst p' <= fst p)
  /\ snd p = (float_of_Z (Z.of_nat i) * stepY)%float
  /\ snd p' = (float_of_Z (Z.of_nat i) * stepY)%float.
Proof.
  intros Hi Hjj Hj' Hp Hp'. unfold glueDots in Hp, Hp'.
  rewrite nth_error_grid in Hp by lia.
  rewrite nth_error_grid in Hp' by lia.
  injection Hp as <-. injection Hp' as <-.
  rewrite !fst_grid_dot, !snd_grid_dot. unfold stepX.
  destruct i as [|[|[|[|i]]]]; try lia; row_parity;
    (repeat split; try reflexivity; intros; try discriminate; lia).
Qed.

Lemma serpentine_rows_witness :
  fst (0, 0%float) <= fst (20, 0%float)
  /\ snd (0, 0%float) = (float_of_Z (Z.of_nat 0) * stepY)%float.
Proof.
  assert (H : (0 < 4)%nat /\ (0 <= 1)%nat
              /\ (1 < Z.to_nat (glueDots_X 1))%nat) by (vm_compute; lia).
  destruct H as (H1 & H2 & H3).
  pose proof (serpentine_rows 1 0 0 1 (0, 0%float) (20, 0%float)
                H1 H2 H3 eq_refl eq_refl) as (Hup & _ & Hy & _).
  exact (conj (Hup eq_refl) Hy).
Defined.

(** C9 (as the generator computes it). For the longest ladder, [L = 12], a
    row has 46 dots and the grid 184; the first dot is at (0, 0) and the last
    dot of row 0 at ((46 - 1) * stepX, 0) = (900, 0). *)
Theorem longest_ladder_grid :
  glueDots_X 12 = 46
  /\ List.length (glueDots 12) = 184%nat
  /\ List.length (glueCoord 12) = 184%nat
  /\ nth_error (glueDots 12) 0 = Some (0, 0%float)
  /\ nth_error (glueDots 12) 45 = Some ((glueDots_X 12 - 1) * stepX, 0%float)
  /\ (glueDots_X 12 - 1) * stepX = 900
  /\ nth_error (glueCoord 12) 0 = Some (0%float, 0%float)
  /\ nth_error (glueCoord 12) 45 = Some (900%float, 0%float).
Proof. repeat split; vm_compute; reflexivity. Qed.

(** C9 as stated (row width 50, 200 coordinates) does not hold of the
    generator: the row width at [L = 12] is 46 and the grid has 184 dots. *)
Lemma longest_ladder_not_50 :
  glueDots_X 12 <> 50 /\ List.length (glueDots 12) <> 200%nat.
Proof. split; vm_compute; discriminate. Qed.

(** ** Text of numbers *)

Lemma append_assoc (a b c : string) : (a ++ b) ++ c = a ++ b ++ c.
Proof. induction a as [|x a IH]; cbn; [reflexivity | now rewrite IH]. Qed.

Lemma append_nil_r (a : string) : a ++ "" = a.
Proof. induction a as [|x a IH]; cbn; [reflexivity | now rewrite IH]. Qed.

Lemma all_digits_string_of_uint (u : Decimal.uint) :
  all_digits (NilEmpty.string_of_uint u) = true.
Proof. induction u; cbn; auto. Qed.

Lemma all_digits_str_uint (n : Z) : all_digits (str_uint n) = true.
Proof.
  unfold str_uint, NilZero.string_of_uint.
  destruct (N.to_uint (Z.to_N n)) eqn:E; try reflexivity;
    rewrite <- E; apply all_digits_string_of_uint.
Qed.

Lemma str_uint_nonempty (n : Z) : str_uint n <> "".
Proof.
  unfold str_uint, NilZero.string_of_uint.
  destruct (N.to_uint (Z.to_N n)); cbn; discriminate.
Qed.

Lemma is_digit_digit (d : Z) : 0 <= d <= 9 -> is_digit (digit d) = true.
Proof.
  intros Hd.
  assert (H : d = 0 \/ d = 1 \/ d = 2 \/ d = 3 \/ d = 4 \/ d = 5 \/ d = 6
              \/ d = 7 \/ d = 8 \/ d = 9) by lia.
  repeat (destruct H as [-> | H]; [reflexivity | ]). now subst.
Qed.

Lemma pad3_shape (n : Z) :
  String.length (pad3 n) = 3%nat
  /\ (0 <= n < 1000 -> all_digits (pad3 n) = true).
Proof.
  split; [reflexivity | intros Hn]. unfold pad3. cbn [all_digits].
  rewrite !is_digit_digit; [reflexivity | | | ].
  - pose proof (Z.mod_pos_bound n 10). lia.
  - pose proof (Z.mod_pos_bound (n / 10) 10). lia.
  - split; [apply Z.div_pos; lia | ].
    assert (n / 100 < 10) by (apply Z.div_lt_upper_bound; lia). lia.
Qed.

Lemma three_decimals_fixed3 (neg : bool) (n : Z) : three_decimals (fixed3 neg n).
Proof.
  exists (if neg then "-" else ""), (str_uint (n / 1000)), (pad3 (n mod 1000)).
  repeat split.
  - now destruct neg; [right | left].
  - apply str_uint_nonempty.
  - apply all_digits_str_uint.
  - apply pad3_shape. apply Z.mod_pos_bound. lia.
Qed.

Lemma format_3f_real (x : num) :
  real_num x = true -> exists s, format_3f x = Ok s /\ three_decimals s.
Proof.
  destruct x as [z | f]; cbn [real_num format_3f]; intros H.
  - unfold float_of_int. destruct (SF_of_Z z); try discriminate H;
      cbn [rbind format_3f_SF]; eexists; split; try reflexivity;
      apply three_decimals_fixed3.
  - destruct (Prim2SF f); try discriminate H; cbn [format_3f_SF];
      eexists; split; try reflexivity; apply three_decimals_fixed3.
Qed.

(** The rounding of the [f] format: the nearest thousandth, and the even one
    of two that are equally near. *)
Lemma round_half_even_nearest (n d : Z) :
  0 < d -> 2 * Z.abs (round_half_even n d * d - n) <= d.
Proof.
  intros Hd. unfold round_half_even.
  pose proof (Z.div_mod n d ltac:(lia)) as E.
  pose proof (Z.mod_pos_bound n d Hd) as Hr.
  set (q := n / d) in *. set (r := n mod d) in *.
  destruct (Z.ltb_spec (2 * r) d); [lia | ].
  destruct (Z.ltb_spec d (2 * r)); [lia | ].
  destruct (Z.even q); lia.
Qed.

Lemma round_half_even_tie (n d : Z) :
  0 < d -> 2 * (n mod d) = d -> Z.even (round_half_even n d) = true.
Proof.
  intros Hd Ht. unfold round_half_even.
  rewrite !(proj2 (Z.ltb_ge _ _)) by lia.
  destruct (Z.even (n / d)) eqn:E; [exact E | ].
  rewrite Z.even_add, E. reflexivity.
Qed.

Lemma thousandths_nearest (m : positive) (e : Z) :
  (0 <= e -> thousandths m e = Z.pos m * 2 ^ e * 1000)
  /\ (e < 0 ->
      2 * Z.abs (thousandths m e * 2 ^ (- e) - Z.pos m * 1000) <= 2 ^ (- e)).
Proof.
  unfold thousandths. split; intros He.
  - now rewrite (proj2 (Z.leb_le 0 e)) by lia.
  - rewrite (proj2 (Z.leb_gt 0 e)) by lia.
    apply round_half_even_nearest. apply Z.pow_pos_nonneg; lia.
Qed.

(** ** The move emitter *)

(** C6. For every delta of real numbers, [moveTo] returns one line: [G00] if
    [fast] else [G01], an X field exactly when [dx] is not 0, a Y field
    exactly when [dy] is not 0, each with exactly three decimals, then the
    comment as given, then the line terminator. *)
Theorem moveTo_line (dx dy : num) (fast : bool) (comment : string) :
  real_num dx = true -> real_num dy = true ->
  exists fx fy,
    moveTo (dx, dy) fast comment
    = Ok ((if fast then "G00" else "G01") ++ fx ++ fy ++ comment ++ nl)
    /\ axis_field "X" dx fx /\ axis_field "Y" dy fy.
Proof.
  intros Hx Hy.
  destruct (format_3f_real dx Hx) as (sx & Ex & Tx).
  destruct (format_3f_real dy Hy) as (sy & Ey & Ty).
  unfold moveTo, axis_field, move_code. cbn [fst snd].
  destruct (py_eq0 dx), (py_eq0 dy); cbn [negb]; rewrite ?Ex, ?Ey;
    cbn [rbind].
  - exists "", "". repeat split. now rewrite !append_assoc.
  - exists "", ("Y" ++ sy). split; [ | split; [reflexivity | now exists sy]].
    now rewrite !append_assoc.
  - exists ("X" ++ sx), "". split; [ | split; [now exists sx | reflexivity]].
    now rewrite !append_assoc.
  - exists ("X" ++ sx), ("Y" ++ sy).
    split; [ | split; [now exists sx | now exists sy]].
    now rewrite !append_assoc.
Qed.

Lemma moveTo_line_witness :
  exists fx fy,
    moveTo (PyFloat (-20), PyFloat 0) true " ; c"
    = Ok ((if true then "G00" else "G01") ++ fx ++ fy ++ " ; c" ++ nl)
    /\ axis_field "X" (PyFloat (-20)) fx /\ axis_field "Y" (PyFloat 0) fy.
Proof.
  apply (moveTo_line (PyFloat (-20)) (PyFloat 0) true " ; c");
    vm_compute; reflexivity.
Defined.

(** Outside the real numbers the field is spelled out, without decimals. *)
Example moveTo_nan_inf :
  moveTo (PyFloat nan, PyFloat infinity) false ""
  = Ok ("G01XnanYinf" ++ nl).
Proof. vm_compute. reflexivity. Qed.

Example moveTo_examples :
  moveTo (PyFloat 20, PyFloat 0) true " ; c" = Ok ("G00X20.000 ; c" ++ nl)
  /\ moveTo (PyFloat 0, PyFloat stepY) true "" = Ok ("G00Y26.200" ++ nl)
  /\ moveTo (PyInt 0, PyInt 0) false "" = Ok ("G01" ++ nl)
  /\ moveTo (PyFloat (-0x1p-12), PyInt 3) false ""
     = Ok ("G01X-0.000Y3.000" ++ nl).
Proof. repeat split; vm_compute; reflexivity. Qed.

(** ** The initializer *)

(** C10. The initializer's positioning move always carries both the X and
    the Y field, each with three decimals, also for a zero component: the
    default offset (0, 237) gives [G00X0.000Y237.000], where [moveTo] would
    leave the zero axis out. *)
Theorem initialize_move_has_both_fields (x y : num) (feed_rate : Z) (fast : bool) :
  real_num x = true -> real_num y = true ->
  (exists fx fy,
      format_3f x = Ok fx /\ three_decimals fx
      /\ format_3f y = Ok fy /\ three_decimals fy
      /\ initialize (x, y) feed_rate fast
         = Ok ("; Program initialization" ++ nl
               ++ "$100=159.949; X axis steps/mm" ++ nl
               ++ "$101=160.241; Y axis steps/mm" ++ nl
               ++ "$130=990; X axis maximum travel" ++ nl
               ++ "$X; GRBL unlock" ++ nl
               ++ "M3" ++ nl
               ++ "F" ++ py_str feed_rate ++ nl
               ++ "$H; GRBL homing" ++ nl
               ++ "G91" ++ nl
               ++ (if fast then "G00" else "G01")
               ++ "X" ++ fx ++ "Y" ++ fy ++ nl
               ++ "; End of program initialization" ++ nl))
  /\ format_3f (PyInt 0) = Ok "0.000"
  /\ format_3f (PyInt 237) = Ok "237.000"
  /\ moveTo (PyInt 0, PyInt 237) true "" = Ok ("G00Y237.000" ++ nl).
Proof.
  intros Hx Hy. split; [ | repeat split; vm_compute; reflexivity].
  destruct (format_3f_real x Hx) as (fx & Ex & Tx).
  destruct (format_3f_real y Hy) as (fy & Ey & Ty).
  exists fx, fy. repeat split; try assumption.
  unfold initialize, move_code. cbn [fst snd]. rewrite Ex, Ey. cbn [rbind].
  now rewrite !append_assoc.
Qed.

Lemma initialize_move_has_both_fields_witness :
  real_num (PyInt 0) = true /\ real_num (PyInt 237) = true
  /\ initialize (PyInt 0, PyInt 237) 1000 true
     = Ok ("; Program initialization" ++ nl
           ++ "$100=159.949; X axis steps/mm" ++ nl
           ++ "$101=160.241; Y axis steps/mm" ++ nl
           ++ "$130=990; X axis maximum travel" ++ nl
           ++ "$X; GRBL unlock" ++ nl
           ++ "M3" ++ nl
           ++ "F1000" ++ nl
           ++ "$H; GRBL homing" ++ nl
           ++ "G91" ++ nl
           ++ "G00X0.000Y237.000" ++ nl
           ++ "; End of program initialization" ++ nl).
Proof.
  assert (H0 : real_num (PyInt 0) = true) by reflexivity.
  assert (H1 : real_num (PyInt 237) = true) by reflexivity.
  destruct (initialize_move_has_both_fields (PyInt 0) (PyInt 237) 1000 true
              H0 H1) as [(fx & fy & Ex & _ & Ey & _ & E) _].
  injection Ex as <-. injection Ey as <-.
  exact (conj H0 (conj H1 E)).
Defined.

(** ** The dispense emitter *)

Lemma glueDeposition_defaults :
  glueDeposition (PyInt 2) (PyInt 1) (PyInt 1) = Ok dispense_block.
Proof. vm_compute. reflexivity. Qed.

(** A check that holds of every element of [range n] holds of every number
    from 0 up to [n]. *)
Lemma forallb_range (P : Z -> bool) (n k : Z) :
  forallb P (range n) = true -> 0 <= k < n -> P k = true.
Proof.
  intros H Hk. rewrite forallb_forall in H. apply H.
  unfold range. apply in_map_iff. exists (Z.to_nat k). split; [lia | ].
  apply in_seq. lia.
Qed.

(** A pause below 1000 is written with exactly three digits. *)
Lemma format_03d_three_digits (z : Z) :
  0 <= z < 1000 ->
  String.length (format_03d z) = 3%nat /\ all_digits (format_03d z) = true.
Proof.
  intros Hz.
  pose proof (forallb_range
                (fun z => (String.length (format_03d z) =? 3)%nat
                          && all_digits (format_03d z))
                1000 z) as H.
  cbv beta in H. rewrite andb_true_iff, Nat.eqb_eq in H.
  apply H; [vm_compute; reflexivity | exact Hz].
Qed.

(** ** The write loop *)

(** On floats [moveTo] never raises. *)
Lemma moveTo_float (a b : float) (fast : bool) (comment : string) :
  moveTo (PyFloat a, PyFloat b) fast comment
  = Ok (move_code fast ++ float_field "X" a ++ float_field "Y" b
          ++ comment ++ nl).
Proof.
  unfold moveTo, float_field. cbn [fst snd py_eq0 format_3f].
  destruct (PrimFloat.eqb a 0), (PrimFloat.eqb b 0); cbn [negb rbind];
    now rewrite !append_assoc.
Qed.

Lemma dot_body_run (coords : list (float * float)) (i : nat)
    (xy oldXY : float * float) (path : string) (written out : list string) :
  nth_error coords i = Some xy ->
  dot_body coords i oldXY (mkWorld (Some (path, written)) out)
  = (mkWorld (Some (path,
                    (written ++ [position_line i (delta xy oldXY);
                                 dispense_block])%list)) out,
     Ok xy).
Proof.
  intros Hi. unfold dot_body, getitem, lift, bind at 1. rewrite Hi.
  unfold position_line.
  destruct (is_zero_delta (delta xy oldXY)); cbn [negb].
  - unfold bind, gcode_write, lift, ret. cbn [gcode stdout].
    rewrite glueDeposition_defaults. cbn [gcode stdout].
    now rewrite <- app_assoc.
  - rewrite moveTo_float. unfold bind, gcode_write, lift, ret.
    cbn [gcode stdout].
    rewrite glueDeposition_defaults. cbn [gcode stdout].
    now rewrite <- app_assoc.
Qed.

Lemma skipn_nth_error {A : Type} (l : list A) (a : nat) :
  (a < List.length l)%nat ->
  exists x, nth_error l a = Some x /\ skipn a l = x :: skipn (S a) l.
Proof.
  revert a. induction l as [|y l IH]; intros a Ha; cbn in Ha; [lia | ].
  destruct a as [|a].
  - exists y. now split.
  - destruct (IH a) as (x & E1 & E2); [lia | ].
    exists x. split; [exact E1 | exact E2].
Qed.

(** The loop over the indices [a, a+1, ..., a+n-1]. *)
Lemma for_dots_run (coords : list (float * float)) (n : nat) :
  forall (a : nat) (oldXY : float * float) (path : string)
         (written out : list string),
    (a + n <= List.length coords)%nat ->
    exists final,
      for_dots coords (seq a n) oldXY (mkWorld (Some (path, written)) out)
      = (mkWorld
           (Some (path,
                  (written
                     ++ dot_writes a oldXY (firstn n (skipn a coords)))%list))
           out,
         Ok final).
Proof.
  induction n as [|n IH]; intros a oldXY path written out Hn.
  - exists oldXY. cbn. now rewrite app_nil_r.
  - destruct (skipn_nth_error coords a) as (xy & E1 & E2); [lia | ].
    destruct (IH (S a) xy path
                (written ++ [position_line a (delta xy oldXY);
                             dispense_block])%list out) as (final & E);
      [lia | ].
    exists final. cbn [seq for_dots]. unfold bind at 1.
    rewrite (dot_body_run _ _ xy) by exact E1.
    rewrite E, E2. cbn [firstn dot_writes].
    rewrite <- app_assoc. reflexivity.
Qed.

Lemma initialize_defaults :
  initialize (PyInt 0, PyInt 237) 1000 true = Ok init_block.
Proof. vm_compute. reflexivity. Qed.

(** A run on a grid that has a first dot: the file is opened and receives
    the initializer, two strings per dot, and the end mark. *)
Lemma generate_run (L : Z) (first : float * float) :
  nth_error (glueCoord L) 0 = Some first ->
  generate L initial_world
  = (mkWorld
       (Some (gcode_path L,
              (init_block :: dot_writes 0 first (glueCoord L) ++ ["SH"])%list))
       [py_str (Z.of_nat (List.length (glueDots L))) ++ nl],
     Ok tt).
Proof.
  intros H0. unfold generate. fold (glueCoord L).
  unfold getitem, lift, bind at 1. rewrite H0.
  unfold bind at 1, print. unfold bind at 1, open_w. cbn [gcode stdout app].
  unfold bind at 1, lift. rewrite initialize_defaults.
  unfold bind at 1, gcode_write at 1. cbn [gcode stdout app].
  destruct (for_dots_run (glueCoord L) (List.length (glueCoord L)) 0 first
              (gcode_path L) [init_block]
              [py_str (Z.of_nat (List.length (glueDots L))) ++ nl])
    as (final & E); [cbn; lia | ].
  unfold bind. change (stdout initial_world) with (@nil string).
  cbn [app]. cbn [app] in E. rewrite E.
  cbn [skipn]. rewrite firstn_all. unfold gcode_write. cbn [gcode stdout app].
  reflexivity.
Qed.

(** The strings written for dot [k] sit at positions [2k] and [2k+1]. *)
Lemma nth_error_dot_writes (cs : list (float * float)) :
  forall (a : nat) (oldXY : float * float) (k : nat) (xy : float * float),
    nth_error cs k = Some xy ->
    nth_error (dot_writes a oldXY cs) (2 * k)
    = Some (position_line (a + k) (delta xy (previous oldXY cs k)))
    /\ nth_error (dot_writes a oldXY cs) (2 * k + 1) = Some dispense_block.
Proof.
  induction cs as [|c cs IH]; intros a oldXY k xy Hk.
  - destruct k; discriminate Hk.
  - destruct k as [|k].
    + injection Hk as <-. cbn. now rewrite Nat.add_0_r.
    + cbn [nth_error] in Hk.
      destruct (IH (S a) c k xy Hk) as [E1 E2].
      replace (2 * S k)%nat with (S (S (2 * k))) by lia.
      cbn [dot_writes nth_error Nat.add]. rewrite E1, E2.
      split; [ | reflexivity].
      replace (a + S k)%nat with (S a + k)%nat by lia.
      do 3 f_equal. destruct k as [|k]; [reflexivity | ].
      cbn [previous nth]. apply nth_indep.
      assert (S k < List.length cs)%nat
        by (apply nth_error_Some; congruence).
      lia.
Qed.

(** In a run, the loop's [oldXY] at dot [i] is the dot before ([i > 0]) or
    dot 0 itself ([i = 0]). *)
Lemma previous_pred (cs : list (float * float)) (first old : float * float)
    (i : nat) :
  nth_error cs 0 = Some first ->
  nth_error cs (Nat.pred i) = Some old ->
  previous first cs i = old.
Proof.
  intros H0 Hi. destruct i as [|i]; cbn [Nat.pred previous] in *.
  - congruence.
  - now apply nth_error_nth.
Qed.

(** ** Steps between neighbouring dots, as the doubles the loop computes *)

Lemma x_step (k : nat) :
  (k < 45)%nat ->
  (float_of_Z ((Z.of_nat k + 1) * stepX) - float_of_Z (Z.of_nat k * stepX))%float
  = 20%float
  /\ (float_of_Z (Z.of_nat k * stepX)
      - float_of_Z ((Z.of_nat k + 1) * stepX))%float
     = (-20)%float.
Proof.
  intros H.
  do 45 (destruct k as [|k]; [split; vm_compute; reflexivity | ]). lia.
Qed.

Lemma x_same (k : nat) :
  (k < 46)%nat ->
  (float_of_Z (Z.of_nat k * stepX) - float_of_Z (Z.of_nat k * stepX))%float
  = 0%float.
Proof.
  intros H. do 46 (destruct k as [|k]; [vm_compute; reflexivity | ]). lia.
Qed.

Lemma y_same (i : nat) : (i < 4)%nat -> (row_y i - row_y i)%float = 0%float.
Proof.
  intros H. do 4 (destruct i as [|i]; [vm_compute; reflexivity | ]). lia.
Qed.

Lemma y_step (i : nat) :
  (i < 3)%nat -> (row_y (S i) - row_y i)%float = row_step i.
Proof.
  intros H. do 3 (destruct i as [|i]; [vm_compute; reflexivity | ]). lia.
Qed.

Lemma valid_row_width (L : Z) :
  valid_length L -> 2 <= glueDots_X L <= 46.
Proof. unfold valid_length. rewrite glueDots_X_linear. lia. Qed.

Lemma nth_error_glueCoord (L : Z) (i j : nat) :
  (i < 4)%nat -> (j < Z.to_nat (glueDots_X L))%nat ->
  nth_error (glueCoord L) (i * Z.to_nat (glueDots_X L) + j)
  = Some (float_of_Z (if Z.of_nat i mod 2 =? 0
                      then Z.of_nat j * stepX
                      else (glueDots_X L - Z.of_nat j - 1) * stepX),
          row_y i).
Proof.
  intros Hi Hj. unfold glueCoord, glueDots.
  rewrite (nth_error_np_array _ _ _ (nth_error_grid _ _ _ i j Hi Hj)).
  now rewrite fst_grid_dot, snd_grid_dot.
Qed.

(** From a dot to the next one of the same row. *)
Lemma delta_same_row (L : Z) (i j : nat) (p q : float * float) :
  valid_length L ->
  (i < 4)%nat -> (S j < Z.to_nat (glueDots_X L))%nat ->
  nth_error (glueCoord L) (i * Z.to_nat (glueDots_X L) + j) = Some p ->
  nth_error (glueCoord L) (i * Z.to_nat (glueDots_X L) + S j) = Some q ->
  delta q p = ((if Nat.even i then 20 else -20)%float, 0%float).
Proof.
  intros HL Hi Hj Hp Hq. pose proof (valid_row_width L HL) as HW.
  assert (Hup : (float_of_Z (Z.of_nat (S j) * stepX)
                 - float_of_Z (Z.of_nat j * stepX))%float = 20%float).
  { replace (Z.of_nat (S j)) with (Z.of_nat j + 1) by lia.
    apply x_step. lia. }
  assert (Hdown : (float_of_Z ((glueDots_X L - Z.of_nat (S j) - 1) * stepX)
                   - float_of_Z ((glueDots_X L - Z.of_nat j - 1) * stepX))%float
                  = (-20)%float).
  { replace (glueDots_X L - Z.of_nat j - 1)
      with (Z.of_nat (Z.to_nat (glueDots_X L) - j - 2) + 1) by lia.
    replace (glueDots_X L - Z.of_nat (S j) - 1)
      with (Z.of_nat (Z.to_nat (glueDots_X L) - j - 2)) by lia.
    apply x_step. lia. }
  rewrite nth_error_glueCoord in Hp by lia.
  rewrite nth_error_glueCoord in Hq by lia.
  injection Hp as <-. injection Hq as <-.
  unfold delta. cbn [fst snd]. rewrite y_same by exact Hi. f_equal.
  destruct i as [|[|[|[|i]]]]; try lia; row_parity;
    [exact Hup | exact Hdown | exact Hup | exact Hdown].
Qed.

(** From the last dot of a row to the first dot of the next row. *)
Lemma delta_next_row (L : Z) (i : nat) (p q : float * float) :
  valid_length L ->
  (i < 3)%nat ->
  nth_error (glueCoord L)
    (i * Z.to_nat (glueDots_X L) + (Z.to_nat (glueDots_X L) - 1)) = Some p ->
  nth_error (glueCoord L) (S i * Z.to_nat (glueDots_X L)) = Some q ->
  delta q p = (0%float, row_step i).
Proof.
  intros HL Hi Hp Hq. pose proof (valid_row_width L HL) as HW.
  assert (Hright :
           (float_of_Z ((glueDots_X L - Z.of_nat 0 - 1) * stepX)
            - float_of_Z (Z.of_nat (Z.to_nat (glueDots_X L) - 1) * stepX))%float
           = 0%float).
  { replace (glueDots_X L - Z.of_nat 0 - 1)
      with (Z.of_nat (Z.to_nat (glueDots_X L) - 1)) by lia.
    apply x_same. lia. }
  assert (Hleft :
           (float_of_Z (Z.of_nat 0 * stepX)
            - float_of_Z ((glueDots_X L
                           - Z.of_nat (Z.to_nat (glueDots_X L) - 1) - 1)
                          * stepX))%float
           = 0%float).
  { replace (glueDots_X L - Z.of_nat (Z.to_nat (glueDots_X L) - 1) - 1)
      with (Z.of_nat 0) by lia.
    apply x_same. lia. }
  rewrite nth_error_glueCoord in Hp by lia.
  rewrite <- (Nat.add_0_r (S i * _)) in Hq.
  rewrite nth_error_glueCoord in Hq by lia.
  injection Hp as <-. injection Hq as <-.
  unfold delta. cbn [fst snd]. rewrite y_step by exact Hi. f_equal.
  destruct i as [|[|[|i]]]; try lia; row_parity;
    [exact Hright | exact Hleft | exact Hright].
Qed.

(** The x-coordinates of the NumPy array keep the order of the integers they
    come from. *)
Lemma x_monotone (j j' : Z) :
  0 <= j <= j' -> j' < 46 ->
  PrimFloat.leb (float_of_Z (j * stepX)) (float_of_Z (j' * stepX)) = true.
Proof.
  intros Hj Hj'.
  pose proof (forallb_range
                (fun a => forallb
                            (fun b => implb (a <=? b)
                                        (PrimFloat.leb (float_of_Z (a * stepX))
                                           (float_of_Z (b * stepX))))
                            (range 46))
                46 j ltac:(vm_compute; reflexivity) ltac:(lia)) as H.
  cbv beta in H.
  pose proof (forallb_range _ 46 j' H ltac:(lia)) as H'. cbv beta in H'.
  replace (j <=? j') with true in H' by (symmetry; apply Z.leb_le; lia).
  exact H'.
Qed.

(** The serpentine rows, read off the array of doubles the write loop uses,
    for a valid ladder length. *)
Lemma serpentine_rows_float64 (L : Z) (i j j' : nat) (p p' : float * float) :
  valid_length L ->
  (i < 4)%nat -> (j <= j')%nat -> (j' < Z.to_nat (glueDots_X L))%nat ->
  nth_error (glueCoord L) (i * Z.to_nat (glueDots_X L) + j) = Some p ->
  nth_error (glueCoord L) (i * Z.to_nat (glueDots_X L) + j') = Some p' ->
  (Nat.even i = true -> PrimFloat.leb (fst p) (fst p') = true)
  /\ (Nat.even i = false -> PrimFloat.leb (fst p') (fst p) = true)
  /\ snd p = row_y i /\ snd p' = row_y i.
Proof.
  intros HL Hi Hjj Hj' Hp Hp'. pose proof (valid_row_width L HL) as HW.
  rewrite nth_error_glueCoord in Hp by lia.
  rewrite nth_error_glueCoord in Hp' by lia.
  injection Hp as <-. injection Hp' as <-. cbn [fst snd].
  assert (Hup : PrimFloat.leb (float_of_Z (Z.of_nat j * stepX))
                  (float_of_Z (Z.of_nat j' * stepX)) = true)
    by (apply x_monotone; lia).
  assert (Hdown : PrimFloat.leb
                    (float_of_Z ((glueDots_X L - Z.of_nat j' - 1) * stepX))
                    (float_of_Z ((glueDots_X L - Z.of_nat j - 1) * stepX))
                  = true)
    by (apply x_monotone; lia).
  destruct i as [|[|[|[|i]]]]; try lia; row_parity;
    (repeat split; intros; try discriminate; assumption).
Qed.

(** ** Neighbouring dots *)

(** C3 as stated fails between rows 2 and 3: the step in y there is not
    [stepY]. At [L = 12] the last dot of row 2 is dot 137, at (900, 52.4),
    and the first dot of row 3 is dot 138, at (900, 78.6); their difference
    in y is the double 26.199999999999996. *)
Lemma row_2_to_3_step_is_not_stepY :
  nth_error (glueCoord 12) (2 * 46 + 45)
  = Some (900%float, 0x1.a333333333333p+5%float)
  /\ nth_error (glueCoord 12) (3 * 46)
     = Some (900%float, 0x1.3a66666666666p+6%float)
  /\ delta (900%float, 0x1.3a66666666666p+6%float)
           (900%float, 0x1.a333333333333p+5%float)
     = (0%float, 0x1.a333333333332p+4%float)
  /\ PrimFloat.eqb 0x1.a333333333332p+4 stepY = false
  /\ 0x1.a333333333332p+4%float <> stepY.
Proof.
  do 4 (split; [vm_compute; reflexivity | ]).
  intros H. apply (f_equal (fun x => PrimFloat.eqb x stepY)) in H.
  vm_compute in H. discriminate H.
Qed.

(** C3 (as the doubles behave). In the grid of a valid ladder length, two
    consecutive dots of one row are [stepX] apart in x and level in y; from
    the last dot of a row to the first dot of the next, x does not change
    and y grows by [stepY] after rows 0 and 1, and after row 2 by the double
    just below [stepY] (78.6 - 52.4), which is written with the same three
    decimals. *)
Theorem adjacent_dots (L : Z) :
  valid_length L ->
  (forall (i j : nat) (p q : float * float),
      (i < 4)%nat -> (S j < Z.to_nat (glueDots_X L))%nat ->
      nth_error (glueCoord L) (i * Z.to_nat (glueDots_X L) + j) = Some p ->
      nth_error (glueCoord L) (i * Z.to_nat (glueDots_X L) + S j) = Some q ->
      PrimFloat.abs (fst (delta q p)) = float_of_Z stepX
      /\ snd (delta q p) = 0%float)
  /\ (forall (i : nat) (p q : float * float),
         (i < 3)%nat ->
         nth_error (glueCoord L)
           (i * Z.to_nat (glueDots_X L) + (Z.to_nat (glueDots_X L) - 1))
         = Some p ->
         nth_error (glueCoord L) (S i * Z.to_nat (glueDots_X L)) = Some q ->
         fst (delta q p) = 0%float
         /\ ((i < 2)%nat -> snd (delta q p) = stepY)
         /\ (i = 2%nat ->
             snd (delta q p) = 0x1.a333333333332p+4%float
             /\ (stepY - snd (delta q p))%float = 0x1p-48%float
             /\ format_3f (PyFloat (snd (delta q p))) = Ok "26.200"
             /\ format_3f (PyFloat stepY) = Ok "26.200")).
Proof.
  intros HL. split.
  - intros i j p q Hi Hj Hp Hq.
    rewrite (delta_same_row L i j p q HL Hi Hj Hp Hq). cbn [fst snd].
    split; [ | reflexivity].
    destruct (Nat.even i); vm_compute; reflexivity.
  - intros i p q Hi Hp Hq.
    rewrite (delta_next_row L i p q HL Hi Hp Hq). cbn [fst snd].
    split; [reflexivity | ]. split.
    + intros H2. unfold row_step.
      destruct (Nat.ltb_spec i 2); [reflexivity | lia].
    + intros ->. repeat split; vm_compute; reflexivity.
Qed.

Lemma adjacent_dots_witness :
  valid_length 12
  /\ (forall (i : nat) (p q : float * float),
         (i < 3)%nat ->
         nth_error (glueCoord 12)
           (i * Z.to_nat (glueDots_X 12) + (Z.to_nat (glueDots_X 12) - 1))
         = Some p ->
         nth_error (glueCoord 12) (S i * Z.to_nat (glueDots_X 12)) = Some q ->
         fst (delta q p) = 0%float
         /\ ((i < 2)%nat -> snd (delta q p) = stepY)
         /\ (i = 2%nat ->
             snd (delta q p) = 0x1.a333333333332p+4%float
             /\ (stepY - snd (delta q p))%float = 0x1p-48%float
             /\ format_3f (PyFloat (snd (delta q p))) = Ok "26.200"
             /\ format_3f (PyFloat stepY) = Ok "26.200")).
Proof.
  assert (H : valid_length 12) by (unfold valid_length; lia).
  exact (conj H (proj2 (adjacent_dots 12 H))).
Defined.

(** ** The first dot and the moves *)

Lemma prefix_append (s t : string) : String.prefix s (s ++ t) = true.
Proof.
  induction s as [|c s IH]; cbn.
  - now destruct t.
  - destruct (ascii_dec c c); [exact IH | congruence].
Qed.

Lemma nth_error_app_Some {A : Type} (l l' : list A) (k : nat) (x : A) :
  nth_error l k = Some x -> nth_error (l ++ l') k = Some x.
Proof.
  intros H. rewrite nth_error_app1; [exact H | ].
  apply nth_error_Some. congruence.
Qed.

Lemma nth_error_cons_S {A : Type} (x : A) (l : list A) (k : nat) :
  nth_error (x :: l) (S k) = nth_error l k.
Proof. reflexivity. Qed.

Lemma glueCoord_first (L : Z) :
  0 < glueDots_X L -> nth_error (glueCoord L) 0 = Some (0%float, 0%float).
Proof.
  intros HW.
  exact (nth_error_glueCoord L 0 0 ltac:(lia) ltac:(lia)).
Qed.

Lemma length_glueCoord (L : Z) :
  List.length (glueCoord L) = (4 * Z.to_nat (glueDots_X L))%nat.
Proof. unfold glueCoord, glueDots. now rewrite length_np_array, length_grid. Qed.

(** In a valid grid the delta to dot [i] is zero for dot 0 only. *)
Lemma zero_delta_iff_first (L : Z) (i : nat) (xy old : float * float) :
  valid_length L ->
  nth_error (glueCoord L) i = Some xy ->
  nth_error (glueCoord L) (Nat.pred i) = Some old ->
  is_zero_delta (delta xy old) = true <-> i = 0%nat.
Proof.
  intros HL Hxy Hold. pose proof (valid_row_width L HL) as HW.
  split.
  - intros Hz. destruct i as [|k]; [reflexivity | exfalso].
    cbn [Nat.pred] in Hold.
    assert (Hk : (S k < 4 * Z.to_nat (glueDots_X L))%nat).
    { rewrite <- length_glueCoord. apply nth_error_Some. congruence. }
    destruct (index_row_column _ _ Hk) as (r & j & Hr & Hj & E).
    destruct j as [|j].
    + destruct r as [|r]; [lia | ].
      assert (Ek : k = (r * Z.to_nat (glueDots_X L)
                        + (Z.to_nat (glueDots_X L) - 1))%nat) by lia.
      rewrite Ek in Hold. rewrite E, Nat.add_0_r in Hxy.
      rewrite (delta_next_row L r old xy HL ltac:(lia) Hold Hxy) in Hz.
      revert Hz. unfold row_step.
      destruct (r <? 2)%nat; vm_compute; discriminate.
    + assert (Ek : k = (r * Z.to_nat (glueDots_X L) + j)%nat) by lia.
      rewrite Ek in Hold. rewrite E in Hxy.
      rewrite (delta_same_row L r j old xy HL Hr Hj Hold Hxy) in Hz.
      revert Hz. destruct (Nat.even r); vm_compute; discriminate.
  - intros ->. cbn [Nat.pred] in Hold.
    rewrite glueCoord_first in Hxy, Hold by lia.
    injection Hxy as <-. injection Hold as <-. vm_compute. reflexivity.
Qed.

(** C5. In the run for a valid ladder length the delta from the previous
    position is (0, 0) at dot 0 and at no other dot; for dot 0 the file gets
    the comment line alone, for every later dot the line [moveTo] returns
    for the delta, a [G00] move. *)
Theorem zero_delta_only_at_first_dot (L : Z) :
  valid_length L ->
  exists written out,
    generate L initial_world
    = (mkWorld (Some (gcode_path L, written)) out, Ok tt)
    /\ forall (i : nat) (xy old : float * float),
        nth_error (glueCoord L) i = Some xy ->
        nth_error (glueCoord L) (Nat.pred i) = Some old ->
        (is_zero_delta (delta xy old) = true <-> i = 0%nat)
        /\ (i = 0%nat ->
            nth_error written 1
            = Some ("; First glue dot in position (0, 0)" ++ nl))
        /\ (i <> 0%nat ->
            exists line,
              moveTo (PyFloat (fst (delta xy old)), PyFloat (snd (delta xy old)))
                     fastmovement (dot_comment (Z.of_nat i))
              = Ok line
              /\ nth_error written (1 + 2 * i) = Some line
              /\ String.prefix "G00" line = true).
Proof.
  intros HL. pose proof (valid_row_width L HL) as HW.
  assert (H0 : nth_error (glueCoord L) 0 = Some (0%float, 0%float))
    by (apply glueCoord_first; lia).
  eexists. eexists. split; [exact (generate_run L _ H0) | ].
  intros i xy old Hxy Hold.
  pose proof (zero_delta_iff_first L i xy old HL Hxy Hold) as Hz.
  destruct (nth_error_dot_writes (glueCoord L) 0 (0%float, 0%float) i xy Hxy)
    as [Hline _].
  rewrite (previous_pred _ _ old i H0 Hold) in Hline. cbn [Nat.add] in Hline.
  split; [exact Hz | split].
  - intros ->. rewrite nth_error_cons_S.
    change (2 * 0)%nat with 0%nat in Hline.
    rewrite (nth_error_app_Some _ _ _ _ Hline). f_equal.
    unfold position_line. rewrite (proj2 Hz eq_refl). reflexivity.
  - intros Hi. rewrite moveTo_float. eexists. split; [reflexivity | ].
    split.
    + change (1 + 2 * i)%nat with (S (2 * i)). rewrite nth_error_cons_S.
      rewrite (nth_error_app_Some _ _ _ _ Hline). f_equal.
      unfold position_line.
      destruct (is_zero_delta (delta xy old)); [ | reflexivity].
      exfalso. apply Hi. now apply Hz.
    + apply prefix_append.
Qed.

Lemma zero_delta_only_at_first_dot_witness :
  valid_length 1
  /\ exists written out,
      generate 1 initial_world
      = (mkWorld (Some (gcode_path 1, written)) out, Ok tt)
      /\ nth_error written 1
         = Some ("; First glue dot in position (0, 0)" ++ nl)
      /\ nth_error written 3
         = Some ("G00X20.000 ; Glue dot in position (1, 0)" ++ nl).
Proof.
  assert (H : valid_length 1) by (unfold valid_length; lia).
  split; [exact H | ].
  destruct (zero_delta_only_at_first_dot 1 H) as (written & out & E & _).
  exists written, out. split; [exact E | ].
  vm_compute in E. injection E as <- _. split; reflexivity.
Defined.

(** ** The dispense block *)

(** C7 as stated (a block of exactly 9 lines) fails: the block has 10. *)
Lemma dispense_block_is_not_9_lines :
  glueDeposition (PyInt 2) (PyInt 1) (PyInt 1) = Ok dispense_block
  /\ List.length (lines dispense_block) = 10%nat
  /\ List.length (lines dispense_block) <> 9%nat.
Proof.
  split; [apply glueDeposition_defaults | ].
  split; [vm_compute; reflexivity | vm_compute; discriminate].
Qed.

(** C7 (with the count the emitter gives). With the pauses 2, 1, 1 the
    dispense emitter returns a block of exactly 10 lines, the two comment
    markers around four commands each followed by its dwell; the long pause
    is the same line [G4 P002] twice; every pause is written with three
    zero-padded digits; and in a run every dot is followed by this same
    block, whatever its position. *)
Theorem dispense_block_lines :
  glueDeposition (PyInt 2) (PyInt 1) (PyInt 1) = Ok dispense_block
  /\ lines dispense_block
     = [ "; ------- Glue deposition -------";
         "M4"; "G4 P002";
         "M8"; "G4 P001";
         "M9"; "G4 P001";
         "M3"; "G4 P002";
         "; ------- End of glue deposition -------" ]
  /\ List.length (lines dispense_block) = 10%nat
  /\ count_occ string_dec (lines dispense_block) "G4 P002" = 2%nat
  /\ format_d3 (PyInt 2) = Ok "002"
  /\ format_d3 (PyInt 1) = Ok "001"
  /\ (forall L : Z,
         valid_length L ->
         exists written out,
           generate L initial_world
           = (mkWorld (Some (gcode_path L, written)) out, Ok tt)
           /\ forall i : nat,
               (i < List.length (glueCoord L))%nat ->
               nth_error written (2 + 2 * i) = Some dispense_block).
Proof.
  split; [apply glueDeposition_defaults | ].
  do 5 (split; [vm_compute; reflexivity | ]).
  intros L HL. pose proof (valid_row_width L HL) as HW.
  assert (H0 : nth_error (glueCoord L) 0 = Some (0%float, 0%float))
    by (apply glueCoord_first; lia).
  eexists. eexists. split; [exact (generate_run L _ H0) | ].
  intros i Hi.
  destruct (nth_error (glueCoord L) i) as [xy | ] eqn:Hxy;
    [ | apply nth_error_None in Hxy; lia].
  destruct (nth_error_dot_writes (glueCoord L) 0 (0%float, 0%float) i xy Hxy)
    as [_ Hblock].
  change (2 + 2 * i)%nat with (S (S (2 * i))). rewrite nth_error_cons_S.
  replace (S (2 * i)) with (2 * i + 1)%nat by lia.
  exact (nth_error_app_Some _ _ _ _ Hblock).
Qed.

Lemma dispense_block_lines_witness :
  valid_length 12
  /\ exists written out,
      generate 12 initial_world
      = (mkWorld (Some (gcode_path 12, written)) out, Ok tt)
      /\ forall i : nat,
          (i < List.length (glueCoord 12))%nat ->
          nth_error written (2 + 2 * i) = Some dispense_block.
Proof.
  assert (H : valid_length 12) by (unfold valid_length; lia).
  exact (conj H (proj2 (proj2 (proj2 (proj2 (proj2 (proj2
           dispense_block_lines))))) 12 H)).
Defined.

(** The [d] format refuses a float pause. *)
Example glueDeposition_float_pause :
  glueDeposition (PyFloat 2) (PyInt 1) (PyInt 1) = Raise ValueError.
Proof. reflexivity. Qed.

(** ** What a run writes *)

Lemma length_dot_writes (cs : list (float * float)) :
  forall (a : nat) (oldXY : float * float),
    List.length (dot_writes a oldXY cs) = (2 * List.length cs)%nat.
Proof.
  induction cs as [|c cs IH]; intros a oldXY; cbn [dot_writes List.length].
  - reflexivity.
  - rewrite IH. lia.
Qed.

Lemma position_line_not_dispense (i : nat) (d : float * float) :
  position_line i d <> dispense_block.
Proof.
  unfold position_line, first_comment, move_code, fastmovement.
  destruct (is_zero_delta d); intros H; cbn in H; discriminate H.
Qed.

Lemma count_dispense_dot_writes (cs : list (float * float)) :
  forall (a : nat) (oldXY : float * float),
    count_occ string_dec (dot_writes a oldXY cs) dispense_block
    = List.length cs.
Proof.
  induction cs as [|c cs IH]; intros a oldXY; cbn [dot_writes List.length].
  - reflexivity.
  - rewrite count_occ_cons_neq by apply position_line_not_dispense.
    rewrite count_occ_cons_eq by reflexivity. now rewrite IH.
Qed.

Lemma printed_count (L : Z) :
  0 < glueDots_X L ->
  Z.of_nat (List.length (glueDots L)) = 4 * glueDots_X L.
Proof. intros HW. unfold glueDots. rewrite length_grid. lia. Qed.

(** ** Ladder lengths without a grid, and beyond 12 *)

(** C8 as stated fails for a length above the supported range: for
    [L = 13] nothing is raised and the file is written. *)
Lemma length_13_is_generated :
  ~ valid_length 13
  /\ snd (generate 13 initial_world) = Ok tt
  /\ file_text (fst (generate 13 initial_world)) <> None.
Proof.
  split; [unfold valid_length; lia | ].
  split; [vm_compute; reflexivity | ].
  assert (H0 : nth_error (glueCoord 13) 0 = Some (0%float, 0%float))
    by (vm_compute; reflexivity).
  rewrite (generate_run 13 _ H0). cbn. discriminate.
Qed.

(** C8 (as the generator behaves). A ladder length whose row width is not
    positive (exactly the lengths [L <= 0]) makes the run stop with
    [IndexError] at the read of the first coordinate, before the output file
    is opened: no file, no text. Every other length, also one above 12, is
    generated in full: the count of dots, [4 * glueDots_X], is printed, and
    the file [./<L>Si.gcode] holds the initializer, then for every dot of the
    grid its positioning line followed by the dispense block, and [SH] at
    the end. *)
Theorem no_dots_no_file (L : Z) :
  (glueDots_X L <= 0 ->
   L <= 0
   /\ generate L initial_world = (initial_world, Raise IndexError)
   /\ file_text (fst (generate L initial_world)) = None)
  /\ (0 < glueDots_X L ->
      0 < L
      /\ exists written,
          generate L initial_world
          = (mkWorld (Some ("./" ++ py_str L ++ "Si.gcode", written))
                     [py_str (4 * glueDots_X L) ++ nl],
             Ok tt)
          /\ file_text (fst (generate L initial_world))
             = Some (String.concat "" written)
          /\ written
             = (init_block
                  :: dot_writes 0 (0%float, 0%float) (glueCoord L)
                  ++ ["SH"])%list
          /\ Z.of_nat (List.length (glueCoord L)) = 4 * glueDots_X L
          /\ List.length written = (2 + 2 * List.length (glueCoord L))%nat
          /\ hd_error written = Some init_block
          /\ last written "" = "SH"
          /\ count_occ string_dec written dispense_block
             = List.length (glueCoord L)
          /\ forall (k : nat) (xy : float * float),
              nth_error (glueCoord L) k = Some xy ->
              nth_error written (1 + 2 * k)
              = Some (position_line k
                        (delta xy
                           (previous (0%float, 0%float) (glueCoord L) k)))
              /\ nth_error written (2 + 2 * k) = Some dispense_block).
Proof.
  split; intros HW.
  - assert (E : generate L initial_world = (initial_world, Raise IndexError)).
    { unfold generate, glueDots, grid, grid_row.
      replace (range (glueDots_X L)) with (@nil Z)
        by (unfold range; now replace (Z.to_nat (glueDots_X L)) with O by lia).
      reflexivity. }
    split; [rewrite glueDots_X_linear in HW; lia | ].
    split; [exact E | now rewrite E].
  - split; [rewrite glueDots_X_linear in HW; lia | ].
    pose proof (glueCoord_first L HW) as H0.
    pose proof (generate_run L _ H0) as E.
    rewrite (printed_count L HW) in E.
    exists (init_block :: dot_writes 0 (0%float, 0%float) (glueCoord L)
              ++ ["SH"])%list.
    split; [exact E | ].
    split; [rewrite E; reflexivity | ].
    split; [reflexivity | ].
    split; [rewrite length_glueCoord; lia | ].
    split.
    { cbn [List.length]. rewrite length_app, length_dot_writes. cbn. lia. }
    split; [reflexivity | ].
    split.
    { change (init_block :: dot_writes 0 (0%float, 0%float) (glueCoord L)
                ++ ["SH"])%list
        with ((init_block :: dot_writes 0 (0%float, 0%float) (glueCoord L))
                ++ ["SH"])%list.
      apply last_last. }
    split.
    { rewrite count_occ_cons_neq
        by (intros H; apply String.eqb_eq in H; vm_compute in H;
            discriminate H).
      rewrite count_occ_app, count_dispense_dot_writes.
      rewrite count_occ_cons_neq
        by (intros H; apply String.eqb_eq in H; vm_compute in H;
            discriminate H).
      cbn. lia. }
    intros k xy Hxy.
    destruct (nth_error_dot_writes (glueCoord L) 0 (0%float, 0%float) k xy
                Hxy) as [Hline Hblock].
    cbn [Nat.add] in Hline. split.
    + change (1 + 2 * k)%nat with (S (2 * k)). rewrite nth_error_cons_S.
      exact (nth_error_app_Some _ _ _ _ Hline).
    + change (2 + 2 * k)%nat with (S (S (2 * k))). rewrite nth_error_cons_S.
      replace (S (2 * k)) with (2 * k + 1)%nat by lia.
      exact (nth_error_app_Some _ _ _ _ Hblock).
Qed.

Lemma no_dots_no_file_witness :
  glueDots_X 0 <= 0
  /\ generate 0 initial_world = (initial_world, Raise IndexError)
  /\ file_text (fst (generate 0 initial_world)) = None.
Proof.
  assert (H : glueDots_X 0 <= 0) by (vm_compute; discriminate).
  exact (conj H (proj2 (proj1 (no_dots_no_file 0) H))).
Defined.

(** ** The position written in the comments *)

(** The comment uses that encoding at the fixed width 51. *)
Lemma comment_position_width_51 (i : Z) :
  comment_position i = position_for_width 51 i.
Proof.
  unfold comment_position, position_for_width. cbv zeta.
  replace (((i / 51) mod 4) mod 2) with ((i / 51) mod 2);
    [reflexivity | ].
  generalize (i / 51). intros q.
  pose proof (Z.mod_pos_bound q 4). pose proof (Z.mod_pos_bound q 2).
  pose proof (Z.mod_pos_bound (q mod 4) 2).
  pose proof (Z.div_mod q 4). pose proof (Z.div_mod q 2).
  pose proof (Z.div_mod (q mod 4) 2). lia.
Qed.

(** With the grid's own row width the encoding leads back to the dot. *)
Lemma position_for_width_round_trip (L : Z) (k : nat) (p : Z * float) :
  nth_error (glueDots L) k = Some p ->
  position_coordinate (position_for_width (glueDots_X L) (Z.of_nat k)) = p.
Proof.
  intros Hp.
  assert (Hk : (k < 4 * Z.to_nat (glueDots_X L))%nat).
  { unfold glueDots in Hp. rewrite <- (length_grid stepX stepY).
    apply nth_error_Some. congruence. }
  destruct (index_row_column _ _ Hk) as (i & j & Hi & Hj & E).
  unfold glueDots in Hp. rewrite E, nth_error_grid in Hp by assumption.
  injection Hp as <-.
  assert (HW : 0 < glueDots_X L) by lia.
  assert (Ek : Z.of_nat k = Z.of_nat j + Z.of_nat i * glueDots_X L) by nia.
  assert (Ediv : Z.of_nat k / glueDots_X L = Z.of_nat i).
  { rewrite Ek, Z.div_add by lia. rewrite Z.div_small by lia. lia. }
  assert (Emod : Z.of_nat k mod glueDots_X L = Z.of_nat j).
  { rewrite Ek, Z.mod_add by lia. apply Z.mod_small. lia. }
  unfold position_for_width, position_coordinate. cbv zeta.
  rewrite Ediv, Emod, (Z.mod_small (Z.of_nat i) 4) by lia.
  unfold grid_dot.
  destruct (Z.of_nat i mod 2 =? 0); cbn [fst snd]; f_equal; lia.
Qed.

(** The generator's row width is never the comment's 51 (it is even); the
    plot cell's is, at [L = 12]. *)
Lemma glueDots_X_never_51 (L : Z) : glueDots_X L <> 51.
Proof. rewrite glueDots_X_linear. lia. Qed.

Lemma glueDots_X_plot_12 : glueDots_X_plot 12 = 51.
Proof. reflexivity. Qed.

(** C4 fails on the shipped run ([filename = 12], a row of 46 dots): dot 46
    is the first dot of row 1, at (900, 26.2), and its comment says
    position (46, 0), the coordinate (920, 0). *)
Theorem comment_position_mismatch :
  glueDots_X 12 = 46
  /\ nth_error (glueDots 12) 46 = Some (900, stepY)
  /\ comment_position 46 = (46, 0)
  /\ dot_comment 46 = " ; Glue dot in position (46, 0)"
  /\ position_coordinate (comment_position 46) = (920, 0%float)
  /\ position_for_width (glueDots_X 12) 46 = (45, 1)
  /\ position_coordinate (position_for_width (glueDots_X 12) 46)
     = (900, stepY)
  /\ (exists written out,
         generate 12 initial_world
         = (mkWorld (Some (gcode_path 12, written)) out, Ok tt)
         /\ nth_error written (1 + 2 * 46)
            = Some ("G00Y26.200 ; Glue dot in position (46, 0)" ++ nl)).
Proof.
  do 7 (split; [vm_compute; reflexivity | ]).
  assert (H0 : nth_error (glueCoord 12) 0 = Some (0%float, 0%float))
    by (vm_compute; reflexivity).
  eexists. eexists. split; [exact (generate_run 12 _ H0) | ].
  change (1 + 2 * 46)%nat with (S (2 * 46)). rewrite nth_error_cons_S.
  apply nth_error_app_Some.
  destruct (nth_error_dot_writes (glueCoord 12) 0 (0%float, 0%float) 46
              (900%float, stepY) ltac:(vm_compute; reflexivity)) as [E _].
  rewrite E. vm_compute. reflexivity.
Qed.

(** * Further properties of the notebook's code *)

(** ** The nested loop, for any row width *)

Lemma In_grid (W : Z) (p : Z * float) :
  In p (grid stepX stepY W) ->
  exists i j : nat,
    (i < 4)%nat /\ (j < Z.to_nat W)%nat
    /\ p = grid_dot stepX stepY W (Z.of_nat i) (Z.of_nat j).
Proof.
  intros Hin. destruct (In_nth_error _ _ Hin) as (k & Hk).
  assert (Hlt : (k < 4 * Z.to_nat W)%nat).
  { rewrite <- (length_grid stepX stepY). apply nth_error_Some. congruence. }
  destruct (index_row_column _ _ Hlt) as (i & j & Hi & Hj & E).
  exists i, j. repeat split; try assumption.
  rewrite E, nth_error_grid in Hk by assumption. congruence.
Qed.

(** The four row heights are four different doubles. *)
Lemma row_y_injective (i i' : nat) :
  (i < 4)%nat -> (i' < 4)%nat -> row_y i = row_y i' -> i = i'.
Proof.
  intros Hi Hi' E.
  apply (f_equal (fun y => PrimFloat.eqb y (row_y i'))) in E.
  destruct i as [|[|[|[|i]]]]; try lia;
    destruct i' as [|[|[|[|i']]]]; try lia;
    try reflexivity; vm_compute in E; discriminate E.
Qed.

(** X1. The plot cell's grid has four rows of [51 - (12 - L) * 4] dots when
    that width is positive and no dot otherwise (exactly for [L < 0]); from
    [L = 1] on it has 20 dots more than the generator's grid. *)
Theorem plot_grid_size (L : Z) :
  Z.of_nat (List.length (glueDots_plot L)) = 4 * Z.max 0 (glueDots_X_plot L)
  /\ (glueDots_plot L = [] <-> L < 0)
  /\ (1 <= L ->
      Z.of_nat (List.length (glueDots_plot L))
      = Z.of_nat (List.length (glueDots L)) + 20).
Proof.
  unfold glueDots_plot, glueDots.
  pose proof (glueDots_X_plot_linear L) as EP.
  pose proof (glueDots_X_linear L) as EG.
  split; [rewrite length_grid; lia | ]. split.
  - split; intros H.
    + rewrite <- length_zero_iff_nil, length_grid in H. lia.
    + apply length_zero_iff_nil. rewrite length_grid. lia.
  - intros HL. rewrite !length_grid. lia.
Qed.

(** X2. No position occurs twice in the list the nested loop builds,
    whatever the row width: two indices that hold the same tuple are the
    same index. *)
Theorem grid_dots_distinct (W : Z) (k k' : nat) (p : Z * float) :
  nth_error (grid stepX stepY W) k = Some p ->
  nth_error (grid stepX stepY W) k' = Some p ->
  k = k'.
Proof.
  intros Hk Hk'.
  assert (Hlt : (k < 4 * Z.to_nat W)%nat).
  { rewrite <- (length_grid stepX stepY). apply nth_error_Some. congruence. }
  assert (Hlt' : (k' < 4 * Z.to_nat W)%nat).
  { rewrite <- (length_grid stepX stepY). apply nth_error_Some. congruence. }
  destruct (index_row_column _ _ Hlt) as (i & j & Hi & Hj & E).
  destruct (index_row_column _ _ Hlt') as (i' & j' & Hi' & Hj' & E').
  rewrite E, nth_error_grid in Hk by assumption.
  rewrite E', nth_error_grid in Hk' by assumption.
  injection Hk as Ep. injection Hk' as Ep'.
  assert (Ey : row_y i = row_y i').
  { unfold row_y. rewrite <- (snd_grid_dot stepX stepY W _ (Z.of_nat j)).
    rewrite <- (snd_grid_dot stepX stepY W _ (Z.of_nat j')). congruence. }
  apply row_y_injective in Ey; try assumption. subst i'.
  assert (Ex : fst (grid_dot stepX stepY W (Z.of_nat i) (Z.of_nat j))
               = fst (grid_dot stepX stepY W (Z.of_nat i) (Z.of_nat j')))
    by congruence.
  rewrite !fst_grid_dot in Ex. unfold stepX in Ex.
  assert (j = j') by (destruct (Z.of_nat i mod 2 =? 0); lia).
  subst. reflexivity.
Qed.

Lemma grid_dots_distinct_witness :
  nth_error (grid stepX stepY 46) 137 = Some (900, row_y 2)
  /\ (137 = 137)%nat.
Proof.
  assert (H : nth_error (grid stepX stepY 46) 137 = Some (900, row_y 2))
    by (vm_compute; reflexivity).
  exact (conj H (grid_dots_distinct 46 137 137 _ H H)).
Defined.

(** X3. Every tuple of the generator's list has an x between 0 and
    [(glueDots_X - 1) * stepX] that is a multiple of [stepX], and one of the
    four row heights as y; for a valid ladder length x is at most 900. *)
Theorem grid_dot_bounds (L : Z) (p : Z * float) :
  In p (glueDots L) ->
  0 <= fst p <= (glueDots_X L - 1) * stepX
  /\ fst p mod stepX = 0
  /\ (exists i : nat, (i < 4)%nat /\ snd p = row_y i)
  /\ (valid_length L -> fst p <= 900).
Proof.
  intros Hin. unfold glueDots in Hin.
  destruct (In_grid _ _ Hin) as (i & j & Hi & Hj & ->).
  rewrite fst_grid_dot, snd_grid_dot.
  assert (Hx : exists c, 0 <= c <= glueDots_X L - 1
                         /\ (if Z.of_nat i mod 2 =? 0
                             then Z.of_nat j * stepX
                             else (glueDots_X L - Z.of_nat j - 1) * stepX)
                            = c * stepX).
  { destruct (Z.of_nat i mod 2 =? 0).
    - exists (Z.of_nat j). split; [lia | reflexivity].
    - exists (glueDots_X L - Z.of_nat j - 1). split; [lia | reflexivity]. }
  destruct Hx as (c & Hc & ->). unfold stepX. repeat split; try lia.
  - apply Z.mod_mul. lia.
  - exists i. split; [exact Hi | reflexivity].
  - intros HL. pose proof (valid_row_width L HL). lia.
Qed.

Lemma grid_dot_bounds_witness :
  In (900, row_y 2) (glueDots 12) /\ 0 <= fst (900, row_y 2) <= 900.
Proof.
  assert (H : In (900, row_y 2) (glueDots 12)).
  { apply (nth_error_In _ 137). vm_compute. reflexivity. }
  destruct (grid_dot_bounds 12 _ H) as (Hx & _ & _ & Hv).
  split; [exact H | ]. split; [apply Hx | apply Hv].
  unfold valid_length. lia.
Defined.

(** X4. For a valid ladder length every dot of the plot cell's grid lies
    inside the window the cell sets on the axes, x from -20 to 1200 and y
    from -20 to 100. *)
Theorem plot_dots_inside_window (L : Z) (p : Z * float) :
  valid_length L -> In p (glueDots_plot L) -> inside_window p = true.
Proof.
  intros [Hlo Hhi] Hin. unfold glueDots_plot in Hin.
  pose proof (glueDots_X_plot_linear L) as EW.
  destruct (In_grid _ _ Hin) as (i & j & Hi & Hj & ->).
  unfold inside_window. rewrite fst_grid_dot, snd_grid_dot.
  assert (Hx : -20 <= (if Z.of_nat i mod 2 =? 0
                       then Z.of_nat j * stepX
                       else (glueDots_X_plot L - Z.of_nat j - 1) * stepX)
               <= 1200)
    by (unfold stepX; destruct (Z.of_nat i mod 2 =? 0); lia).
  cbn [xlim ylim fst snd].
  rewrite (proj2 (Z.leb_le _ _) (proj1 Hx)), (proj2 (Z.leb_le _ _) (proj2 Hx)).
  destruct i as [|[|[|[|i]]]]; try lia; vm_compute; reflexivity.
Qed.

Lemma plot_dots_inside_window_witness :
  valid_length 8 /\ In (680, row_y 1) (glueDots_plot 8)
  /\ inside_window (680, row_y 1) = true.
Proof.
  assert (HL : valid_length 8) by (unfold valid_length; lia).
  assert (H : In (680, row_y 1) (glueDots_plot 8)).
  { apply (nth_error_In _ 35). vm_compute. reflexivity. }
  exact (conj HL (conj H (plot_dots_inside_window 8 _ HL H))).
Defined.

(** X5. In the list the nested loop builds, for any row width, a tuple and
    the next one are exactly [stepX] apart in x and at the same height when
    they belong to one row, and have the same x when the second one opens a
    new row. *)
Theorem grid_neighbours (W : Z) (k : nat) (p q : Z * float) :
  nth_error (grid stepX stepY W) k = Some p ->
  nth_error (grid stepX stepY W) (S k) = Some q ->
  ((S k mod Z.to_nat W <> 0)%nat ->
   Z.abs (fst q - fst p) = stepX /\ snd q = snd p)
  /\ ((S k mod Z.to_nat W = 0)%nat -> fst q = fst p /\ snd q <> snd p).
Proof.
  intros Hp Hq.
  assert (Hlt : (k < 4 * Z.to_nat W)%nat).
  { rewrite <- (length_grid stepX stepY). apply nth_error_Some. congruence. }
  assert (Hlt' : (S k < 4 * Z.to_nat W)%nat).
  { rewrite <- (length_grid stepX stepY). apply nth_error_Some. congruence. }
  destruct (index_row_column _ _ Hlt) as (i & j & Hi & Hj & E).
  rewrite E, nth_error_grid in Hp by assumption. injection Hp as <-.
  destruct (Nat.eq_dec (S j) (Z.to_nat W)) as [Elast | Hin].
  - (* the last dot of row i, then the first dot of row i + 1 *)
    assert (Ek : S k = (S i * Z.to_nat W + 0)%nat) by lia.
    assert (Hi' : (S i < 4)%nat) by nia.
    assert (Em : (S k mod Z.to_nat W = 0)%nat).
    { rewrite Ek, Nat.add_0_r. apply Nat.Div0.mod_mul. }
    rewrite Ek, nth_error_grid in Hq by lia. injection Hq as <-.
    split; [intros H; contradiction | intros _].
    rewrite !fst_grid_dot, !snd_grid_dot. split.
    + unfold stepX.
      destruct i as [|[|[|i]]]; try lia; row_parity; lia.
    + intros Ey. assert (Ey' : row_y (S i) = row_y i) by exact Ey.
      apply row_y_injective in Ey'; lia.
  - (* two dots of row i *)
    assert (Ek : S k = (i * Z.to_nat W + S j)%nat) by lia.
    assert (Em : (S k mod Z.to_nat W = S j)%nat).
    { rewrite Ek, Nat.add_comm, Nat.Div0.mod_add. apply Nat.mod_small. lia. }
    rewrite Ek, nth_error_grid in Hq by lia. injection Hq as <-.
    split; [intros _ | intros H; lia].
    rewrite !fst_grid_dot, !snd_grid_dot. split; [ | reflexivity].
    unfold stepX. destruct (Z.of_nat i mod 2 =? 0); lia.
Qed.

Lemma grid_neighbours_witness :
  Z.abs (fst (900, row_y 0) - fst (880, row_y 0)) = stepX
  /\ fst (900, row_y 1) = fst (900, row_y 0).
Proof.
  destruct (grid_neighbours 46 44 (880, row_y 0) (900, row_y 0)
              eq_refl eq_refl) as [Hrow _].
  destruct (grid_neighbours 46 45 (900, row_y 0) (900, row_y 1)
              eq_refl eq_refl) as [_ Hnext].
  split.
  - apply Hrow. vm_compute. discriminate.
  - apply Hnext. vm_compute. reflexivity.
Defined.

(** ** The run of the generator *)

(** A run on a grid that has a first dot, from any state of the world. *)
Lemma generate_run_from (L : Z) (w : world) (first : float * float) :
  nth_error (glueCoord L) 0 = Some first ->
  generate L w
  = (mkWorld
       (Some (gcode_path L,
              (init_block :: dot_writes 0 first (glueCoord L) ++ ["SH"])%list))
       (stdout w ++ [(py_str (Z.of_nat (List.length (glueDots L))) ++ nl)%string])%list,
     Ok tt).
Proof.
  intros H0. unfold generate. fold (glueCoord L).
  unfold getitem, lift, bind at 1. rewrite H0.
  unfold bind at 1, print. unfold bind at 1, open_w. cbn [gcode stdout app].
  unfold bind at 1, lift. rewrite initialize_defaults.
  unfold bind at 1, gcode_write at 1. cbn [gcode stdout app].
  destruct (for_dots_run (glueCoord L) (List.length (glueCoord L)) 0 first
              (gcode_path L) [init_block]
              (stdout w ++ [(py_str (Z.of_nat (List.length (glueDots L))) ++ nl)%string])%list)
    as (final & E); [cbn; lia | ].
  unfold bind. cbn [app] in E. rewrite E.
  cbn [skipn]. rewrite firstn_all. unfold gcode_write. cbn [gcode stdout app].
  reflexivity.
Qed.

(** X6. For every ladder length with a positive row width the run succeeds;
    it prints the number of dots, [4 * glueDots_X], and leaves in the file
    [./<L>Si.gcode] the initializer first, then two strings per dot, one of
    them the dispense block, and [SH] last. *)
Theorem run_structure (L : Z) :
  0 < glueDots_X L ->
  exists written,
    generate L initial_world
    = (mkWorld (Some ("./" ++ py_str L ++ "Si.gcode", written))
               [py_str (4 * glueDots_X L) ++ nl],
       Ok tt)
    /\ List.length written = (2 + 2 * List.length (glueCoord L))%nat
    /\ Z.of_nat (List.length (glueCoord L)) = 4 * glueDots_X L
    /\ hd_error written = Some init_block
    /\ last written "" = "SH"
    /\ count_occ string_dec written dispense_block
       = List.length (glueCoord L).
Proof.
  intros HW.
  pose proof (glueCoord_first L HW) as H0.
  exists (init_block :: dot_writes 0 (0%float, 0%float) (glueCoord L)
            ++ ["SH"])%list.
  split; [ | split; [ | split; [ | split; [ | split]]]].
  - rewrite (generate_run L _ H0), (printed_count L HW). reflexivity.
  - cbn [List.length]. rewrite length_app, length_dot_writes. cbn. lia.
  - rewrite length_glueCoord. lia.
  - reflexivity.
  - change (init_block :: dot_writes 0 (0%float, 0%float) (glueCoord L)
              ++ ["SH"])%list
      with ((init_block :: dot_writes 0 (0%float, 0%float) (glueCoord L))
              ++ ["SH"])%list.
    apply last_last.
  - rewrite count_occ_cons_neq
      by (intros H; apply String.eqb_eq in H; vm_compute in H; discriminate H).
    rewrite count_occ_app, count_dispense_dot_writes.
    rewrite count_occ_cons_neq
      by (intros H; apply String.eqb_eq in H; vm_compute in H; discriminate H).
    cbn. lia.
Qed.

Lemma run_structure_witness :
  0 < glueDots_X 13
  /\ exists written,
      generate 13 initial_world
      = (mkWorld (Some ("./" ++ py_str 13 ++ "Si.gcode", written))
                 [py_str (4 * glueDots_X 13) ++ nl],
         Ok tt)
      /\ List.length written = (2 + 2 * List.length (glueCoord 13))%nat.
Proof.
  assert (H : 0 < glueDots_X 13) by reflexivity.
  destruct (run_structure 13 H) as (written & E & Hlen & _).
  exact (conj H (ex_intro _ written (conj E Hlen))).
Defined.

(** X7. With a row width that is not positive the run stops with
    [IndexError] whatever the world is: a file that exists is left as it is
    and nothing is printed. *)
Theorem failed_run_changes_nothing (L : Z) (w : world) :
  glueDots_X L <= 0 -> generate L w = (w, Raise IndexError).
Proof.
  intros HW. unfold generate, glueDots, grid, grid_row.
  replace (range (glueDots_X L)) with (@nil Z)
    by (unfold range; now replace (Z.to_nat (glueDots_X L)) with O by lia).
  reflexivity.
Qed.

Lemma failed_run_changes_nothing_witness :
  glueDots_X (-3) <= 0
  /\ generate (-3) (mkWorld (Some ("./12Si.gcode", ["SH"])) ["184" ++ nl])
     = (mkWorld (Some ("./12Si.gcode", ["SH"])) ["184" ++ nl],
        Raise IndexError).
Proof.
  assert (H : glueDots_X (-3) <= 0) by (vm_compute; discriminate).
  exact (conj H (failed_run_changes_nothing (-3) _ H)).
Defined.

(** X8. Running the cell again for the same ladder length, on a world where
    its file is absent or already written, gives the same file as the first
    run (the file is opened anew, not appended to) and prints the number of
    dots once more. *)
Theorem rerun_rewrites_same_file (L : Z) (w : world) :
  0 < glueDots_X L ->
  (gcode w = None \/ exists old, gcode w = Some (gcode_path L, old)) ->
  snd (generate L w) = Ok tt
  /\ gcode (fst (generate L w)) = gcode (fst (generate L initial_world))
  /\ stdout (fst (generate L w))
     = (stdout w ++ stdout (fst (generate L initial_world)))%list.
Proof.
  intros HW _. pose proof (glueCoord_first L HW) as H0.
  rewrite (generate_run_from L w _ H0), (generate_run L _ H0).
  repeat split.
Qed.

Lemma rerun_rewrites_same_file_witness :
  gcode (fst (generate 1 (fst (generate 1 initial_world))))
  = gcode (fst (generate 1 initial_world))
  /\ stdout (fst (generate 1 (fst (generate 1 initial_world))))
     = ["8" ++ nl; "8" ++ nl].
Proof.
  assert (HW : 0 < glueDots_X 1) by reflexivity.
  assert (Hw : gcode (fst (generate 1 initial_world)) = None
               \/ exists old,
                   gcode (fst (generate 1 initial_world))
                   = Some (gcode_path 1, old)).
  { right. eexists. vm_compute. reflexivity. }
  destruct (rerun_rewrites_same_file 1 (fst (generate 1 initial_world)) HW Hw)
    as (_ & Hfile & Hout).
  split; [exact Hfile | ].
  rewrite Hout. vm_compute. reflexivity.
Defined.

(** ** The moves of a run *)

Lemma position_line_x_up (k : nat) :
  position_line k (20%float, 0%float)
  = "G00" ++ "X20.000" ++ dot_comment (Z.of_nat k) ++ nl.
Proof. reflexivity. Qed.

Lemma position_line_x_down (k : nat) :
  position_line k ((-20)%float, 0%float)
  = "G00" ++ "X-20.000" ++ dot_comment (Z.of_nat k) ++ nl.
Proof. reflexivity. Qed.

Lemma position_line_y (k i : nat) :
  (i < 3)%nat ->
  position_line k (0%float, row_step i)
  = "G00" ++ "Y26.200" ++ dot_comment (Z.of_nat k) ++ nl.
Proof.
  intros Hi. destruct i as [|[|[|i]]]; try lia; reflexivity.
Qed.

(** X9. In the file of a run for a valid ladder length the positioning line
    of every dot but the first is a move along one axis: [G00Y26.200] to the
    first dot of a row (also from row 2 to row 3), [G00X20.000] inside an
    even row and [G00X-20.000] inside an odd row, followed by the comment. *)
Theorem moves_are_single_axis (L : Z) :
  valid_length L ->
  exists written out,
    generate L initial_world
    = (mkWorld (Some (gcode_path L, written)) out, Ok tt)
    /\ forall i j : nat,
        (i < 4)%nat -> (j < Z.to_nat (glueDots_X L))%nat ->
        (i * Z.to_nat (glueDots_X L) + j <> 0)%nat ->
        nth_error written (1 + 2 * (i * Z.to_nat (glueDots_X L) + j))
        = Some ("G00" ++ move_field i j
                  ++ dot_comment
                       (Z.of_nat (i * Z.to_nat (glueDots_X L) + j))
                  ++ nl).
Proof.
  intros HL. pose proof (valid_row_width L HL) as HW.
  assert (H0 : nth_error (glueCoord L) 0 = Some (0%float, 0%float))
    by (apply glueCoord_first; lia).
  eexists. eexists. split; [exact (generate_run L _ H0) | ].
  intros i j Hi Hj Hk.
  set (k := (i * Z.to_nat (glueDots_X L) + j)%nat) in *.
  assert (Hlt : (k < List.length (glueCoord L))%nat)
    by (rewrite length_glueCoord; unfold k; nia).
  destruct (nth_error (glueCoord L) k) as [xy | ] eqn:Hxy;
    [ | apply nth_error_None in Hxy; lia].
  destruct (nth_error (glueCoord L) (Nat.pred k)) as [old | ] eqn:Hold;
    [ | apply nth_error_None in Hold; lia].
  destruct (nth_error_dot_writes (glueCoord L) 0 (0%float, 0%float) k xy Hxy)
    as [Hline _].
  rewrite (previous_pred _ _ old k H0 Hold) in Hline. cbn [Nat.add] in Hline.
  change (1 + 2 * k)%nat with (S (2 * k)). rewrite nth_error_cons_S.
  rewrite (nth_error_app_Some _ _ _ _ Hline). f_equal.
  unfold move_field. destruct j as [|j].
  - (* the first dot of row i, after the last dot of row i - 1 *)
    destruct i as [|i]; [unfold k in Hk; lia | ].
    assert (Ep : Nat.pred k
                 = (i * Z.to_nat (glueDots_X L)
                    + (Z.to_nat (glueDots_X L) - 1))%nat)
      by (unfold k; lia).
    assert (Ek : k = (S i * Z.to_nat (glueDots_X L))%nat) by (unfold k; lia).
    rewrite Ep in Hold. rewrite Ek in Hxy.
    rewrite (delta_next_row L i old xy HL ltac:(lia) Hold Hxy).
    cbn [Nat.eqb]. apply position_line_y. lia.
  - assert (Ep : Nat.pred k = (i * Z.to_nat (glueDots_X L) + j)%nat)
      by (unfold k; lia).
    rewrite Ep in Hold. unfold k in Hxy.
    rewrite (delta_same_row L i j old xy HL Hi Hj Hold Hxy).
    cbn [Nat.eqb]. destruct (Nat.even i);
      [apply position_line_x_up | apply position_line_x_down].
Qed.

Lemma moves_are_single_axis_witness :
  valid_length 1
  /\ exists written out,
      generate 1 initial_world
      = (mkWorld (Some (gcode_path 1, written)) out, Ok tt)
      /\ nth_error written (1 + 2 * (3 * Z.to_nat (glueDots_X 1) + 0))
         = Some ("G00" ++ "Y26.200" ++ dot_comment 6 ++ nl).
Proof.
  assert (H : valid_length 1) by (unfold valid_length; lia).
  destruct (moves_are_single_axis 1 H) as (written & out & E & Hmv).
  split; [exact H | ]. exists written, out. split; [exact E | ].
  apply (Hmv 3%nat 0%nat); vm_compute; [lia | lia | discriminate].
Defined.

(** ** The position in the comments *)

Lemma position_eqb_eq (a b : Z * Z) : position_eqb a b = true <-> a = b.
Proof.
  destruct a as [a1 a2], b as [b1 b2]. unfold position_eqb. cbn [fst snd].
  rewrite andb_true_iff, !Z.eqb_eq. split.
  - intros [-> ->]. reflexivity.
  - intros E. injection E as -> ->. now split.
Qed.

(** For a valid ladder length the comment's pair is the pair of the grid's
    own row width on row 0 and nowhere else. *)
Lemma comment_position_agrees_iff_row_0 (L k : Z) :
  valid_length L -> 0 <= k < 4 * glueDots_X L ->
  (comment_position k = position_for_width (glueDots_X L) k
   <-> k < glueDots_X L).
Proof.
  intros HL Hk.
  assert (Hchk : Bool.eqb (position_eqb (comment_position k)
                             (position_for_width (glueDots_X L) k))
                   (k <? glueDots_X L) = true).
  { unfold valid_length in HL.
    assert (HA : forallb
                   (fun m =>
                      forallb
                        (fun k => Bool.eqb
                                    (position_eqb (comment_position k)
                                       (position_for_width
                                          (glueDots_X (m + 1)) k))
                                    (k <? glueDots_X (m + 1)))
                        (range (4 * glueDots_X (m + 1))))
                   (range 12) = true) by (vm_compute; reflexivity).
    pose proof (forallb_range _ 12 (L - 1) HA ltac:(lia)) as HB.
    cbv beta in HB. replace (L - 1 + 1) with L in HB by lia.
    exact (forallb_range _ _ k HB Hk). }
  apply Bool.eqb_prop in Hchk.
  rewrite <- position_eqb_eq, Hchk. apply Z.ltb_lt.
Qed.

Lemma position_coordinate_injective (a b : Z * Z) :
  0 <= snd a <= 3 -> 0 <= snd b <= 3 ->
  position_coordinate a = position_coordinate b -> a = b.
Proof.
  destruct a as [c r], b as [c' r']. unfold position_coordinate.
  cbn [fst snd]. intros Hr Hr' E. injection E as Ex Ey.
  unfold stepX in Ex. assert (c = c') by lia. subst c'.
  rewrite <- (Z2Nat.id r), <- (Z2Nat.id r') in Ey by lia.
  apply row_y_injective in Ey; [ | lia | lia].
  f_equal. lia.
Qed.

(** X10. For a valid ladder length the (column, row) pair in the comment of
    a dot leads back to the dot's coordinate (column times [stepX], row times
    [stepY]) for the dots of row 0 and for no dot of the rows 1 to 3. *)
Theorem comment_right_on_row_0_only (L : Z) (k : nat) (p : Z * float) :
  valid_length L ->
  nth_error (glueDots L) k = Some p ->
  (position_coordinate (comment_position (Z.of_nat k)) = p
   <-> (k < Z.to_nat (glueDots_X L))%nat).
Proof.
  intros HL Hp. pose proof (valid_row_width L HL) as HW.
  assert (Hk : (k < 4 * Z.to_nat (glueDots_X L))%nat).
  { unfold glueDots in Hp. rewrite <- (length_grid stepX stepY).
    apply nth_error_Some. congruence. }
  pose proof (position_for_width_round_trip L k p Hp) as Hrt.
  pose proof (comment_position_agrees_iff_row_0 L (Z.of_nat k) HL
                ltac:(lia)) as Hiff.
  split.
  - intros E. rewrite <- Hrt in E.
    apply position_coordinate_injective in E.
    + apply Hiff in E. lia.
    + unfold comment_position. cbn [snd].
      pose proof (Z.mod_pos_bound (Z.of_nat k / 51) 4 ltac:(lia)). lia.
    + unfold position_for_width. cbn [snd].
      pose proof (Z.mod_pos_bound (Z.of_nat k / glueDots_X L) 4 ltac:(lia)).
      lia.
  - intros Hlt. rewrite (proj2 Hiff ltac:(lia)). exact Hrt.
Qed.

Lemma comment_right_on_row_0_only_witness :
  valid_length 12
  /\ nth_error (glueDots 12) 46 = Some (900, stepY)
  /\ ~ position_coordinate (comment_position (Z.of_nat 46)) = (900, stepY).
Proof.
  assert (HL : valid_length 12) by (unfold valid_length; lia).
  assert (Hp : nth_error (glueDots 12) 46 = Some (900, stepY))
    by (vm_compute; reflexivity).
  split; [exact HL | ]. split; [exact Hp | ].
  intros E. apply (comment_right_on_row_0_only 12 46 _ HL Hp) in E.
  vm_compute in E. lia.
Defined.

(** X11. Whatever the index, the comment names a column from 0 to 50 and a
    row from 0 to 3; for an index below 51 it names the index itself and
    row 0. *)
Theorem comment_position_range (i : Z) :
  0 <= fst (comment_position i) <= 50
  /\ 0 <= snd (comment_position i) <= 3
  /\ (0 <= i < 51 -> comment_position i = (i, 0)).
Proof.
  unfold comment_position. cbn [fst snd].
  pose proof (Z.mod_pos_bound i 51 ltac:(lia)).
  pose proof (Z.mod_pos_bound (i / 51) 4 ltac:(lia)).
  split; [destruct ((i / 51) mod 2 =? 0); lia | ].
  split; [lia | ].
  intros Hi. rewrite (Z.div_small i 51), (Z.mod_small i 51) by lia.
  reflexivity.
Qed.

(** ** The emitters, beyond the values the generator passes *)

(** X12. With both components equal to zero (an [int] 0, or a float 0.0 or
    -0.0) [moveTo] returns the move code alone, followed by the comment and
    the line terminator: a move instruction without any axis field. *)
Theorem moveTo_zero_delta (dx dy : num) (fast : bool) (comment : string) :
  py_eq0 dx = true -> py_eq0 dy = true ->
  moveTo (dx, dy) fast comment
  = Ok ((if fast then "G00" else "G01") ++ comment ++ nl).
Proof.
  intros Hx Hy. unfold moveTo, move_code. cbn [fst snd].
  rewrite Hx, Hy. cbn [negb rbind]. now rewrite append_assoc.
Qed.

Lemma moveTo_zero_delta_witness :
  moveTo (PyFloat (-0), PyInt 0) true " ; c" = Ok ("G00 ; c" ++ nl).
Proof.
  exact (moveTo_zero_delta (PyFloat (-0)) (PyInt 0) true " ; c"
           eq_refl eq_refl).
Defined.

Lemma format_3f_error (x : num) (e : exn) :
  format_3f x = Raise e ->
  e = OverflowError /\ exists z, x = PyInt z /\ z <> 0.
Proof.
  destruct x as [z | f]; cbn [format_3f]; [ | discriminate].
  unfold float_of_int. intros H.
  destruct (Z.eq_dec z 0) as [-> | Hz]; [discriminate H | ].
  destruct (SF_of_Z z); cbn [rbind] in H; try discriminate H.
  injection H as <-. split; [reflexivity | now exists z].
Qed.

(** X13. [moveTo] always returns a line for floats, a NaN or an infinity
    included; when it raises, the error is [OverflowError] and one of the two
    components is a non-zero [int] (one too large for a double). *)
Theorem moveTo_errors :
  (forall (a b : float) (fast : bool) (comment : string),
      exists line, moveTo (PyFloat a, PyFloat b) fast comment = Ok line)
  /\ (forall (dx dy : num) (fast : bool) (comment : string) (e : exn),
         moveTo (dx, dy) fast comment = Raise e ->
         e = OverflowError
         /\ exists z, (dx = PyInt z \/ dy = PyInt z) /\ z <> 0
                      /\ format_3f (PyInt z) = Raise OverflowError).
Proof.
  split.
  - intros a b fast comment. rewrite moveTo_float. now eexists.
  - intros dx dy fast comment e. unfold moveTo. cbn [fst snd].
    destruct (py_eq0 dx); cbn [negb rbind].
    + destruct (py_eq0 dy); cbn [negb rbind]; [discriminate | ].
      destruct (format_3f dy) as [s | e'] eqn:Ey; cbn [rbind];
        [discriminate | ].
      intros H. injection H as <-.
      destruct (format_3f_error dy e' Ey) as (-> & z & -> & Hz).
      split; [reflexivity | ]. exists z. now repeat split; [right | | ].
    + destruct (format_3f dx) as [s | e'] eqn:Ex; cbn [rbind].
      * destruct (py_eq0 dy); cbn [negb rbind]; [discriminate | ].
        destruct (format_3f dy) as [s' | e''] eqn:Ey; cbn [rbind];
          [discriminate | ].
        intros H. injection H as <-.
        destruct (format_3f_error dy e'' Ey) as (-> & z & -> & Hz).
        split; [reflexivity | ]. exists z. now repeat split; [right | | ].
      * intros H. injection H as <-.
        destruct (format_3f_error dx e' Ex) as (-> & z & -> & Hz).
        split; [reflexivity | ]. exists z. now repeat split; [left | | ].
Qed.

(** An [int] from -1000 to 1000 is written as itself with [.000]. *)
Lemma format_3f_small_int (z : Z) :
  -1000 <= z <= 1000 -> format_3f (PyInt z) = Ok (py_str z ++ ".000").
Proof.
  intros Hz.
  pose proof (forallb_range
                (fun n => match format_3f (PyInt (n - 1000)) with
                          | Ok s => String.eqb s (py_str (n - 1000) ++ ".000")
                          | Raise _ => false
                          end)
                2001 (z + 1000) ltac:(vm_compute; reflexivity)
                ltac:(lia)) as H.
  cbv beta in H. replace (z + 1000 - 1000) with z in H by lia.
  destruct (format_3f (PyInt z)) as [s | e]; [ | discriminate H].
  apply String.eqb_eq in H. now subst.
Qed.

(** X14. For an offset of two [int]s from -1000 to 1000 (the travel of the
    machine is 990), a feed rate and a flag, [initialize] returns its eleven
    lines with the feed rate as given after [F] and the positioning move
    [X<x>.000Y<y>.000]. *)
Theorem initialize_int_offset (x y feed_rate : Z) (fast : bool) :
  -1000 <= x <= 1000 -> -1000 <= y <= 1000 ->
  initialize (PyInt x, PyInt y) feed_rate fast
  = Ok ("; Program initialization" ++ nl
        ++ "$100=159.949; X axis steps/mm" ++ nl
        ++ "$101=160.241; Y axis steps/mm" ++ nl
        ++ "$130=990; X axis maximum travel" ++ nl
        ++ "$X; GRBL unlock" ++ nl
        ++ "M3" ++ nl
        ++ "F" ++ py_str feed_rate ++ nl
        ++ "$H; GRBL homing" ++ nl
        ++ "G91" ++ nl
        ++ (if fast then "G00" else "G01")
        ++ "X" ++ py_str x ++ ".000" ++ "Y" ++ py_str y ++ ".000" ++ nl
        ++ "; End of program initialization" ++ nl).
Proof.
  intros Hx Hy. unfold initialize, move_code. cbn [fst snd].
  rewrite (format_3f_small_int x Hx), (format_3f_small_int y Hy).
  cbn [rbind]. now rewrite !append_assoc.
Qed.

Lemma initialize_int_offset_witness :
  initialize (PyInt (-5), PyInt 237) 800 false
  = Ok ("; Program initialization" ++ nl
        ++ "$100=159.949; X axis steps/mm" ++ nl
        ++ "$101=160.241; Y axis steps/mm" ++ nl
        ++ "$130=990; X axis maximum travel" ++ nl
        ++ "$X; GRBL unlock" ++ nl
        ++ "M3" ++ nl
        ++ "F800" ++ nl
        ++ "$H; GRBL homing" ++ nl
        ++ "G91" ++ nl
        ++ "G01X-5.000Y237.000" ++ nl
        ++ "; End of program initialization" ++ nl).
Proof.
  exact (initialize_int_offset (-5) 237 800 false
           ltac:(lia) ltac:(lia)).
Defined.

Lemma length_append (a b : string) :
  String.length (a ++ b) = (String.length a + String.length b)%nat.
Proof. induction a as [|x a IH]; cbn; [reflexivity | now rewrite IH]. Qed.

Lemma length_zeros (n : nat) : String.length (zeros n) = n.
Proof. induction n as [|n IH]; cbn; [reflexivity | now rewrite IH]. Qed.

Lemma no_nl_append (a b : string) : no_nl (a ++ b) = no_nl a && no_nl b.
Proof.
  induction a as [|x a IH]; cbn [append no_nl]; [reflexivity | ].
  now rewrite IH, andb_assoc.
Qed.

Lemma no_nl_zeros (n : nat) : no_nl (zeros n) = true.
Proof. induction n as [|n IH]; cbn; [reflexivity | exact IH]. Qed.

Lemma no_nl_all_digits (s : string) : all_digits s = true -> no_nl s = true.
Proof.
  induction s as [|c s IH]; cbn [all_digits no_nl]; [reflexivity | ].
  intros H. apply andb_true_iff in H. destruct H as [Hc Hs].
  rewrite (IH Hs), andb_true_r. unfold is_nl.
  destruct (Ascii.eqb_spec c (ascii_of_nat 10)) as [-> | _];
    [discriminate Hc | reflexivity].
Qed.

Lemma no_nl_format_03d (z : Z) : no_nl (format_03d z) = true.
Proof.
  unfold format_03d. rewrite !no_nl_append, no_nl_zeros.
  rewrite (no_nl_all_digits _ (all_digits_str_uint _)).
  now destruct (z <? 0).
Qed.

(** A text without terminator, then the terminator, is one line. *)
Lemma lines_line (s rest : string) :
  no_nl s = true -> lines (s ++ nl ++ rest) = s :: lines rest.
Proof.
  induction s as [|c s IH]; intros H.
  - reflexivity.
  - cbn [no_nl] in H. apply andb_true_iff in H. destruct H as [Hc Hs].
    cbn [append lines]. unfold is_nl in Hc.
    destruct (Ascii.eqb c (ascii_of_nat 10)); [discriminate Hc | ].
    now rewrite (IH Hs).
Qed.

Lemma lines_last (s : string) : no_nl s = true -> lines (s ++ nl) = [s].
Proof.
  intros H. rewrite <- (append_nil_r nl). now rewrite lines_line.
Qed.

(** X15. For [int] pauses, whatever their values, [glueDeposition] returns
    the same ten lines, the four dwells carrying the long, short, glue and
    again the long pause in the [03d] format; as soon as one pause is a
    float, as the annotations of the function suggest, it raises
    [ValueError]. *)
Theorem glueDeposition_pauses :
  (forall a b c : Z,
      exists block,
        glueDeposition (PyInt a) (PyInt b) (PyInt c) = Ok block
        /\ lines block
           = [ "; ------- Glue deposition -------";
               "M4"; "G4 P" ++ format_03d a;
               "M8"; "G4 P" ++ format_03d b;
               "M9"; "G4 P" ++ format_03d c;
               "M3"; "G4 P" ++ format_03d a;
               "; ------- End of glue deposition -------" ])
  /\ (forall a b c : num,
         is_float a || is_float b || is_float c = true ->
         glueDeposition a b c = Raise ValueError).
Proof.
  split.
  - intros a b c.
    exists ("; ------- Glue deposition -------" ++ nl
            ++ "M4" ++ nl ++ ("G4 P" ++ format_03d a) ++ nl
            ++ "M8" ++ nl ++ ("G4 P" ++ format_03d b) ++ nl
            ++ "M9" ++ nl ++ ("G4 P" ++ format_03d c) ++ nl
            ++ "M3" ++ nl ++ ("G4 P" ++ format_03d a) ++ nl
            ++ "; ------- End of glue deposition -------" ++ nl).
    split.
    + unfold glueDeposition. cbn [format_d3 rbind].
      now rewrite !append_assoc.
    + assert (Hd : forall z, no_nl ("G4 P" ++ format_03d z) = true)
        by (intros z; rewrite no_nl_append, no_nl_format_03d; reflexivity).
      rewrite !lines_line by (first [reflexivity | apply Hd]).
      rewrite lines_last by reflexivity. reflexivity.
  - intros a b c H.
    destruct a, b, c; cbn in H; try discriminate H; reflexivity.
Qed.

(** X16. The [03d] field of a pause is never cut: it is as long as the
    number written out when that is 3 characters or more, and 3 characters
    long otherwise; for a pause from 0 to 999 it is exactly three digits. *)
Theorem format_03d_width (z : Z) :
  String.length (format_03d z) = Nat.max 3 (String.length (py_str z))
  /\ (0 <= z < 1000 ->
      String.length (format_03d z) = 3%nat
      /\ all_digits (format_03d z) = true).
Proof.
  split; [ | apply format_03d_three_digits].
  unfold format_03d, py_str.
  destruct (Z.ltb_spec z 0) as [Hneg | Hpos].
  - rewrite Z.abs_neq by lia.
    rewrite !length_append, length_zeros. cbn [String.length]. lia.
  - rewrite Z.abs_eq by lia.
    rewrite !length_append, length_zeros. cbn [String.length]. lia.
Qed.

Lemma ends_with_nl_append (a b : string) :
  ends_with_nl b = true -> ends_with_nl (a ++ b) = true.
Proof.
  intros Hb. induction a as [|c a IH]; [exact Hb | ].
  cbn [append ends_with_nl].
  destruct (a ++ b) eqn:E; [ | exact IH].
  destruct a; cbn in E; [subst b | ]; discriminate.
Qed.

Lemma Ok_inj {A : Type} (a b : A) : Ok a = Ok b -> a = b.
Proof. intros H. now injection H. Qed.

(** X17. Whenever [initialize], [moveTo] or [glueDeposition] returns a
    text, the text ends with a line terminator, so the strings of a file
    never run into each other; [moveToEnd] returns the two lines [G90] and
    the move to [X950] and leaves the second one open. *)
Theorem emitters_end_their_lines :
  (forall zero_glue feed_rate fast s,
      initialize zero_glue feed_rate fast = Ok s -> ends_with_nl s = true)
  /\ (forall xy fast comment s,
         moveTo xy fast comment = Ok s -> ends_with_nl s = true)
  /\ (forall a b c s,
         glueDeposition a b c = Ok s -> ends_with_nl s = true)
  /\ (forall fast,
         ends_with_nl (moveToEnd fast) = false
         /\ lines (moveToEnd fast)
            = ["G90"; (if fast then "G00" else "G01") ++ "X950"]).
Proof.
  split; [ | split; [ | split]].
  - intros zg feed fast s. unfold initialize.
    destruct (format_3f (fst zg)); cbn [rbind]; [ | discriminate].
    destruct (format_3f (snd zg)); cbn [rbind]; [ | discriminate].
    intros H. apply Ok_inj in H. subst s. now apply ends_with_nl_append.
  - intros xy fast comment s. unfold moveTo.
    destruct (py_eq0 (fst xy)); cbn [negb rbind].
    + destruct (py_eq0 (snd xy)); cbn [negb rbind].
      * intros H. apply Ok_inj in H. subst s. now apply ends_with_nl_append.
      * destruct (format_3f (snd xy)); cbn [rbind]; [ | discriminate].
        intros H. apply Ok_inj in H. subst s. now apply ends_with_nl_append.
    + destruct (format_3f (fst xy)); cbn [rbind]; [ | discriminate].
      destruct (py_eq0 (snd xy)); cbn [negb rbind].
      * intros H. apply Ok_inj in H. subst s. now apply ends_with_nl_append.
      * destruct (format_3f (snd xy)); cbn [rbind]; [ | discriminate].
        intros H. apply Ok_inj in H. subst s. now apply ends_with_nl_append.
  - intros a b c s. unfold glueDeposition.
    destruct (format_d3 a); cbn [rbind]; [ | discriminate].
    destruct (format_d3 b); cbn [rbind]; [ | discriminate].
    destruct (format_d3 c); cbn [rbind]; [ | discriminate].
    intros H. apply Ok_inj in H. subst s. now apply ends_with_nl_append.
  - intros fast. destruct fast; split; reflexivity.
Qed.

(** ** Where the rows begin and end *)

(** X18. For any positive row width, row [i] of the list begins at x = 0
    and ends at [(width - 1) * stepX] when [i] is even, and the other way
    round when [i] is odd; so the list begins at (0, 0) and ends at x = 0 on
    row 3. *)
Theorem row_ends (W : Z) (i : nat) :
  0 < W -> (i < 4)%nat ->
  nth_error (grid stepX stepY W) (i * Z.to_nat W)
  = Some ((if Nat.even i then 0 else (W - 1) * stepX), row_y i)
  /\ nth_error (grid stepX stepY W) (i * Z.to_nat W + (Z.to_nat W - 1))
     = Some ((if Nat.even i then (W - 1) * stepX else 0), row_y i).
Proof.
  intros HW Hi.
  rewrite <- (Nat.add_0_r (i * Z.to_nat W)) at 1.
  rewrite !nth_error_grid by lia. unfold grid_dot, row_y, stepX.
  destruct i as [|[|[|[|i]]]]; try lia; row_parity;
    split; do 2 f_equal; lia.
Qed.

Lemma row_ends_witness :
  nth_error (grid stepX stepY 35) (1 * Z.to_nat 35)
  = Some ((if Nat.even 1 then 0 else (35 - 1) * stepX), row_y 1)
  /\ nth_error (grid stepX stepY 35) (1 * Z.to_nat 35 + (Z.to_nat 35 - 1))
     = Some ((if Nat.even 1 then (35 - 1) * stepX else 0), row_y 1).
Proof.
  exact (row_ends 35 1 ltac:(lia) ltac:(lia)).
Defined.
